(** * sisloginpy: the credential store of [login_system.py]

    A shallow embedding of class [LoginSystem] (registration, login with
    lockout, recovery codes, password reset, loading and saving) together
    with the parts of the Python runtime it relies on: [str.encode] (UTF-8),
    [hashlib.sha256], [datetime] comparison and arithmetic,
    [timedelta.seconds] and [random.choices].

    Conventions.
    - A Python [str] is the list of its code points ([str := list N]); [len]
      counts code points. The messages the methods return are [str] values
      too, written here as the literals of the source.
    - A [datetime] is a number of microseconds on the time line ([Z]); a
      [timedelta] is a signed number of microseconds. The textual forms
      ([isoformat], [fromisoformat], [str]) are exact on these values and are
      left out, as is the range of years of [datetime].
    - Every call of [datetime.now()] consumes one reading of the clock and
      every element drawn by [random.choices] one reading of the generator;
      both are given as streams ([nat -> _]) and the world keeps the
      positions. [login] reads the clock twice when the account is locked
      (lines 218 and 219).
    - The two dictionaries are finite maps from [str]; a user record and an
      attempt record have the keys the code writes. The three JSON files are
      part of the world: a file is missing, unreadable, or holds a
      dictionary. Writes are taken to succeed.
    - A Python exception is an outcome of its own ([Raise]); the world at
      the point of the raise is kept, as the interpreter keeps it. The only
      exception on the paths modelled is [UnicodeEncodeError], raised by
      [password.encode()] on a lone surrogate. *)

From Stdlib Require Import NArith ZArith Lia Ascii String.
From stdpp Require Import gmap list strings pretty.

(** ** Python strings *)

Definition str := list N.

(** An ASCII literal of the source, as a [str]. *)
Definition lit (s : string) : str :=
  (λ a, N_of_ascii a) <$> list_ascii_of_string s.

(** The bytes of a literal of this file. *)
Definition bytes_of (s : string) : list N :=
  (λ a, N_of_ascii a) <$> list_ascii_of_string s.

(** [len(s)] *)
Definition len (s : str) : Z := Z.of_nat (length s).

(** ** [str.encode()]: UTF-8, error handler [strict] *)

Module Utf8.
Local Open Scope N_scope.

Definition is_surrogate (c : N) : bool := (0xD800 <=? c) && (c <=? 0xDFFF).

Definition cont (c : N) (sh : N) : N := N.lor 0x80 (N.land (N.shiftr c sh) 0x3F).

(** The bytes of one code point; [None] is [UnicodeEncodeError]. *)
Definition encode_char (c : N) : option (list N) :=
  if c <? 0x80 then Some [c]
  else if c <? 0x800 then Some [N.lor 0xC0 (N.shiftr c 6); cont c 0]
  else if c <? 0x10000 then
    if is_surrogate c then None
    else Some [N.lor 0xE0 (N.shiftr c 12); cont c 6; cont c 0]
  else if c <? 0x110000 then
    Some [N.lor 0xF0 (N.shiftr c 18); cont c 12; cont c 6; cont c 0]
  else None.

Fixpoint encode (s : str) : option (list N) :=
  match s with
  | [] => Some []
  | c :: s' =>
      match encode_char c, encode s' with
      | Some bs, Some rest => Some (bs ++ rest)
      | _, _ => None
      end
  end.

(** The inverse direction, used for the literals of the source file, which
    is UTF-8 text. *)
Fixpoint decode (bs : list N) : str :=
  match bs with
  | [] => []
  | b0 :: rest =>
      if b0 <? 0x80 then b0 :: decode rest
      else if b0 <? 0xE0 then
        match rest with
        | b1 :: r =>
            N.lor (N.shiftl (N.land b0 0x1F) 6) (N.land b1 0x3F) :: decode r
        | _ => []
        end
      else if b0 <? 0xF0 then
        match rest with
        | b1 :: b2 :: r =>
            N.lor (N.shiftl (N.land b0 0x0F) 12)
              (N.lor (N.shiftl (N.land b1 0x3F) 6) (N.land b2 0x3F)) :: decode r
        | _ => []
        end
      else
        match rest with
        | b1 :: b2 :: b3 :: r =>
            N.lor (N.shiftl (N.land b0 0x07) 18)
              (N.lor (N.shiftl (N.land b1 0x3F) 12)
                 (N.lor (N.shiftl (N.land b2 0x3F) 6) (N.land b3 0x3F))) :: decode r
        | _ => []
        end
  end.

End Utf8.

(** A [str] that [encode()] accepts: every code point is a Unicode scalar
    value. *)
Definition encodable (s : str) : Prop := is_Some (Utf8.encode s).

(** ** [hashlib.sha256(...).hexdigest()] (FIPS 180-4) *)

Module Sha256.
Local Open Scope N_scope.

Definition mask32 : N := 0xFFFFFFFF.
Definition wrap (x : N) : N := N.land x mask32.
Definition add32 (x y : N) : N := wrap (x + y).
Definition rotr (n x : N) : N :=
  N.lor (N.shiftr x n) (wrap (N.shiftl x (32 - n))).
Definition not32 (x : N) : N := N.lxor x mask32.

Definition Ch (x y z : N) : N := N.lxor (N.land x y) (N.land (not32 x) z).
Definition Maj (x y z : N) : N :=
  N.lxor (N.lxor (N.land x y) (N.land x z)) (N.land y z).
Definition bsig0 (x : N) : N := N.lxor (N.lxor (rotr 2 x) (rotr 13 x)) (rotr 22 x).
Definition bsig1 (x : N) : N := N.lxor (N.lxor (rotr 6 x) (rotr 11 x)) (rotr 25 x).
Definition ssig0 (x : N) : N := N.lxor (N.lxor (rotr 7 x) (rotr 18 x)) (N.shiftr x 3).
Definition ssig1 (x : N) : N := N.lxor (N.lxor (rotr 17 x) (rotr 19 x)) (N.shiftr x 10).

Definition K : list N :=
  [ 0x428A2F98; 0x71374491; 0xB5C0FBCF; 0xE9B5DBA5;
    0x3956C25B; 0x59F111F1; 0x923F82A4; 0xAB1C5ED5;
    0xD807AA98; 0x12835B01; 0x243185BE; 0x550C7DC3;
    0x72BE5D74; 0x80DEB1FE; 0x9BDC06A7; 0xC19BF174;
    0xE49B69C1; 0xEFBE4786; 0x0FC19DC6; 0x240CA1CC;
    0x2DE92C6F; 0x4A7484AA; 0x5CB0A9DC; 0x76F988DA;
    0x983E5152; 0xA831C66D; 0xB00327C8; 0xBF597FC7;
    0xC6E00BF3; 0xD5A79147; 0x06CA6351; 0x14292967;
    0x27B70A85; 0x2E1B2138; 0x4D2C6DFC; 0x53380D13;
    0x650A7354; 0x766A0ABB; 0x81C2C92E; 0x92722C85;
    0xA2BFE8A1; 0xA81A664B; 0xC24B8B70; 0xC76C51A3;
    0xD192E819; 0xD6990624; 0xF40E3585; 0x106AA070;
    0x19A4C116; 0x1E376C08; 0x2748774C; 0x34B0BCB5;
    0x391C0CB3; 0x4ED8AA4A; 0x5B9CCA4F; 0x682E6FF3;
    0x748F82EE; 0x78A5636F; 0x84C87814; 0x8CC70208;
    0x90BEFFFA; 0xA4506CEB; 0xBEF9A3F7; 0xC67178F2 ].

(** The eight chaining words. *)
Record regs := Regs { ra : N; rb : N; rc : N; rd : N; re : N; rf : N; rg : N; rh : N }.

Definition iv : regs :=
  Regs 0x6A09E667 0xBB67AE85 0x3C6EF372 0xA54FF53A
       0x510E527F 0x9B05688C 0x1F83D9AB 0x5BE0CD19.

(** Big-endian bytes of a number, [n] of them. *)
Fixpoint be_bytes (n : nat) (x : N) : list N :=
  match n with
  | O => []
  | S n' => be_bytes n' (N.shiftr x 8) ++ [N.land x 0xFF]
  end.

(** Message, then 0x80, then zeros up to 56 mod 64, then the bit length on
    eight bytes. *)
Definition pad (msg : list N) : list N :=
  let l := N.of_nat (length msg) in
  let zeros := N.to_nat ((55 + 64 - l mod 64) mod 64) in
  msg ++ [0x80] ++ replicate zeros 0 ++ be_bytes 8 (8 * l).

Fixpoint words (fuel : nat) (bs : list N) : list N :=
  match fuel, bs with
  | S fuel', b0 :: b1 :: b2 :: b3 :: rest =>
      N.lor (N.lor (N.shiftl b0 24) (N.shiftl b1 16)) (N.lor (N.shiftl b2 8) b3)
        :: words fuel' rest
  | _, _ => []
  end.

Fixpoint blocks (fuel : nat) (ws : list N) : list (list N) :=
  match fuel, ws with
  | O, _ | _, [] => []
  | S fuel', _ => take 16 ws :: blocks fuel' (drop 16 ws)
  end.

(** The message schedule, latest word first: [r = W(t-1) :: W(t-2) :: ...]. *)
Fixpoint extend (n : nat) (r : list N) : list N :=
  match n with
  | O => r
  | S n' =>
      let w := add32 (add32 (ssig1 (r !!! 1%nat)) (r !!! 6%nat))
                     (add32 (ssig0 (r !!! 14%nat)) (r !!! 15%nat)) in
      extend n' (w :: r)
  end.

Definition schedule (block : list N) : list N := reverse (extend 48 (reverse block)).

Definition round (s : regs) (kw : N * N) : regs :=
  let '(k, w) := kw in
  let t1 := add32 (add32 (add32 (rh s) (bsig1 (re s))) (add32 (Ch (re s) (rf s) (rg s)) k)) w in
  let t2 := add32 (bsig0 (ra s)) (Maj (ra s) (rb s) (rc s)) in
  Regs (add32 t1 t2) (ra s) (rb s) (rc s) (add32 (rd s) t1) (re s) (rf s) (rg s).

Definition compress (h : regs) (block : list N) : regs :=
  let s := foldl round h (zip K (schedule block)) in
  Regs (add32 (ra h) (ra s)) (add32 (rb h) (rb s)) (add32 (rc h) (rc s))
       (add32 (rd h) (rd s)) (add32 (re h) (re s)) (add32 (rf h) (rf s))
       (add32 (rg h) (rg s)) (add32 (rh h) (rh s)).

Definition digest (msg : list N) : regs :=
  let bs := pad msg in
  let ws := words (length bs) bs in
  foldl compress iv (blocks (length ws) ws).

(** One lowercase hexadecimal digit, as a code point. *)
Definition hexdigit (d : N) : N := if d <? 10 then 48 + d else 87 + d.

(** The eight digits of a 32-bit word, most significant first. *)
Fixpoint hex (n : nat) (x : N) : list N :=
  match n with
  | O => []
  | S n' => hex n' (N.shiftr x 4) ++ [hexdigit (N.land x 0xF)]
  end.

Definition hexdigest (msg : list N) : str :=
  let h := digest msg in
  hex 8 (ra h) ++ hex 8 (rb h) ++ hex 8 (rc h) ++ hex 8 (rd h) ++
  hex 8 (re h) ++ hex 8 (rf h) ++ hex 8 (rg h) ++ hex 8 (rh h).

End Sha256.


(** A literal of the source with accented letters: the code points of the
    UTF-8 text between the quotes. *)
Definition py (s : string) : str := Utf8.decode (bytes_of s).

(** [str(n)] and [f"{n}"] for an [int]. *)
Definition str_of_int (n : Z) : str := lit (pretty n).


(** ** [config.py] *)

Definition MAX_LOGIN_ATTEMPTS : Z := 3.
Definition LOCKOUT_TIME : Z := 300.
Definition PASSWORD_MIN_LENGTH : Z := 6.
Definition ADMIN_USERNAME : str := lit "admin".
Definition ADMIN_PASSWORD : str := lit "admin123".

(** ** [datetime] and [timedelta] *)

Definition datetime := Z.

(** [timedelta(seconds=s)] *)
Definition timedelta (s : Z) : Z := s * 1000000.

(** [d.seconds] of a timedelta [d]: a timedelta is kept normalised as days,
    seconds in 0..86399 and microseconds in 0..999999, the days carrying the
    sign; [seconds] is that middle component. *)
Definition seconds (d : Z) : Z := (d `mod` 86400000000) `div` 1000000.

(** ** The two dictionaries and the three files *)

Module User.
Record record := Build {
  password : str;
  role : str;
  created_at : datetime;
  last_login : option datetime;
  recovery_code : option str
}.
End User.

Module Attempt.
Record record := Build {
  count : Z;
  lockout_until : option datetime
}.
End Attempt.

(** What [os.path.exists] and [json.load] find in a file. *)
Inductive file (A : Type) :=
  | Missing
  | Corrupt
  | Content (a : A).
Arguments Missing {A}.
Arguments Corrupt {A}.
Arguments Content {A} a.

Record world := World {
  users : gmap str User.record;
  login_attempts : gmap str Attempt.record;
  database_file : file (gmap str User.record);
  backup_file : file (gmap str User.record);
  attempts_file : file (gmap str Attempt.record);
  ticks : nat;
  draws : nat
}.

Definition set_users (us : gmap str User.record) (w : world) : world :=
  World us (login_attempts w) (database_file w) (backup_file w)
        (attempts_file w) (ticks w) (draws w).

Definition set_login_attempts (la : gmap str Attempt.record) (w : world) : world :=
  World (users w) la (database_file w) (backup_file w)
        (attempts_file w) (ticks w) (draws w).

(** The clock moves to its next reading. *)
Definition tick (w : world) : world :=
  World (users w) (login_attempts w) (database_file w) (backup_file w)
        (attempts_file w) (S (ticks w)) (draws w).

Definition set_count (c : Z) (r : Attempt.record) : Attempt.record :=
  Attempt.Build c (Attempt.lockout_until r).

Definition set_lockout_until (l : option datetime) (r : Attempt.record) : Attempt.record :=
  Attempt.Build (Attempt.count r) l.

Definition set_password (h : str) (u : User.record) : User.record :=
  User.Build h (User.role u) (User.created_at u) (User.last_login u) (User.recovery_code u).

Definition set_last_login (t : option datetime) (u : User.record) : User.record :=
  User.Build (User.password u) (User.role u) (User.created_at u) t (User.recovery_code u).

Definition set_recovery_code (c : option str) (u : User.record) : User.record :=
  User.Build (User.password u) (User.role u) (User.created_at u) (User.last_login u) c.

(** ** Outcomes of a call *)

Inductive exn := UnicodeEncodeError.

Inductive outcome (A : Type) :=
  | Return (a : A)
  | Raise (e : exn).
Arguments Return {A} a.
Arguments Raise {A} e.

Definition M (A : Type) : Type := world → outcome A * world.

Definition ret {A} (a : A) : M A := λ w, (Return a, w).

Definition raise {A} (e : exn) : M A := λ w, (Raise e, w).

Definition bind {A B} (m : M A) (k : A → M B) : M B :=
  λ w, match m w with
       | (Return a, w') => k a w'
       | (Raise e, w') => (Raise e, w')
       end.

#[export] Instance M_ret : MRet M := @ret.
#[export] Instance M_bind : MBind M := λ A B k m, bind m k.

Definition get : M world := λ w, (Return w, w).
Definition modify (f : world → world) : M unit := λ w, (Return (), f w).

(** Truthiness of [user["recovery_code"]]: [None] and the empty string are
    false. *)
Definition truthy (c : option str) : bool :=
  match c with
  | None | Some [] => false
  | Some (_ :: _) => true
  end.

Definition ascii_uppercase : str := lit "ABCDEFGHIJKLMNOPQRSTUVWXYZ".
Definition digits : str := lit "0123456789".

Section LoginSystem.

(** The readings of [datetime.now()], in the order of the calls, and the
    indices picked by [random.choices], in the order of the draws. *)
Variable clock : nat → datetime.
Variable random : nat → nat.

Local Open Scope Z_scope.

Definition now : M datetime := λ w, (Return (clock (ticks w)), tick w).

(** One element of [population], chosen by the next draw. *)
Definition choice (population : str) : M N :=
  λ w, (Return (population !!! (random (draws w) `mod` length population)%nat),
        World (users w) (login_attempts w) (database_file w) (backup_file w)
              (attempts_file w) (ticks w) (S (draws w))).

(** [random.choices(population, k=k)] *)
Fixpoint choices (population : str) (k : nat) : M str :=
  match k with
  | O => ret []
  | S k' => c ← choice population; cs ← choices population k'; ret (c :: cs)
  end.

(** [save_data]: the user file is copied to the backup when it exists,
    then both dictionaries are written (the writes are taken to succeed). *)
Definition save_data : M unit :=
  modify (λ w,
    World (users w) (login_attempts w)
          (Content (users w))
          (match database_file w with
           | Missing => backup_file w
           | f => f
           end)
          (Content (login_attempts w))
          (ticks w) (draws w)).

Definition hash_password (password : str) : M str :=
  match Utf8.encode password with
  | Some bs => ret (Sha256.hexdigest bs)
  | None => raise UnicodeEncodeError
  end.

(** [load_data], called by [__init__] on two empty dictionaries. *)
Definition load_data : M unit :=
  (w ← get;
   match database_file w with
   | Content us => modify (set_users us)
   | Corrupt => modify (set_users ∅)
   | Missing =>
       h ← hash_password ADMIN_PASSWORD;
       t ← now;
       modify (set_users {[ ADMIN_USERNAME := User.Build h (lit "admin") t None None ]});;
       save_data
   end);;
  w ← get;
  match attempts_file w with
  | Content la => modify (set_login_attempts la)
  | Corrupt => modify (set_login_attempts ∅)
  | Missing => modify (set_login_attempts ∅)
  end.

Definition register (username password confirm_password : str) : M (bool * str) :=
  w ← get;
  if decide (username ∈ dom (users w)) then
    ret (false, py "Usuário já existe.")
  else if len password <? PASSWORD_MIN_LENGTH then
    ret (false, lit "A senha deve ter pelo menos " ++ str_of_int PASSWORD_MIN_LENGTH
                  ++ lit " caracteres.")
  else if bool_decide (password ≠ confirm_password) then
    ret (false, py "As senhas não conferem.")
  else
    h ← hash_password password;
    t ← now;
    modify (λ w, set_users (<[ username := User.Build h (lit "user") t None None ]> (users w)) w);;
    save_data;;
    ret (true, py "Usuário registrado com sucesso!").

(** Lines 214-224 of [login]: [Some remaining] when the call returns from
    inside the lockout check. *)
Definition check_lockout (username : str) : M (option Z) :=
  w ← get;
  match login_attempts w !! username with
  | Some attempts =>
      match Attempt.lockout_until attempts with
      | Some lockout_time =>
          t ← now;
          if t <? lockout_time then
            t' ← now;
            ret (Some (seconds (lockout_time - t')))
          else
            modify (λ w, set_login_attempts
              (<[ username := Attempt.Build 0 None ]> (login_attempts w)) w);;
            ret None
      | None => ret None
      end
  | None => ret None
  end.

(** Lines 226-251 of [login]: the password check and what follows it. *)
Definition verify_password (username : str) (u : User.record) (password : str)
  : M (bool * str) :=
  h ← hash_password password;
  if bool_decide (User.password u ≠ h) then
    w ← get;
    let attempts := default (Attempt.Build 0 None) (login_attempts w !! username) in
    let attempts := set_count (Attempt.count attempts + 1) attempts in
    modify (set_login_attempts (<[ username := attempts ]> (login_attempts w)));;
    if MAX_LOGIN_ATTEMPTS <=? Attempt.count attempts then
      t ← now;
      modify (λ w, set_login_attempts
        (<[ username := set_lockout_until (Some (t + timedelta LOCKOUT_TIME)) attempts ]>
           (login_attempts w)) w);;
      save_data;;
      ret (false, lit "Conta bloqueada por " ++ str_of_int (LOCKOUT_TIME `div` 60)
                    ++ lit " minutos devido a muitas tentativas incorretas.")
    else
      save_data;;
      ret (false, lit "Senha incorreta. Tentativas restantes: "
                    ++ str_of_int (MAX_LOGIN_ATTEMPTS - Attempt.count attempts) ++ lit ".")
  else
    modify (λ w,
      match login_attempts w !! username with
      | Some r =>
          set_login_attempts (<[ username := set_count 0 r ]> (login_attempts w)) w
      | None => w
      end);;
    t ← now;
    modify (λ w, set_users (<[ username := set_last_login (Some t) u ]> (users w)) w);;
    save_data;;
    ret (true, lit "Login realizado com sucesso!").

Definition login (username password : str) : M (bool * str) :=
  w ← get;
  match users w !! username with
  | None => ret (false, py "Usuário não encontrado.")
  | Some u =>
      locked ← check_lockout username;
      match locked with
      | Some remaining =>
          ret (false, lit "Conta bloqueada. Tente novamente em " ++ str_of_int remaining
                        ++ lit " segundos.")
      | None => verify_password username u password
      end
  end.

Definition list_users : M (gmap str User.record) :=
  w ← get; ret (users w).

Definition generate_recovery_code (username : str) : M (bool * str) :=
  w ← get;
  match users w !! username with
  | None => ret (false, py "Usuário não encontrado.")
  | Some u =>
      recovery_code ← choices (ascii_uppercase ++ digits) 8;
      modify (λ w, set_users
        (<[ username := set_recovery_code (Some recovery_code) u ]> (users w)) w);;
      save_data;;
      ret (true, recovery_code)
  end.

Definition reset_password (username recovery_code new_password : str) : M (bool * str) :=
  w ← get;
  match users w !! username with
  | None => ret (false, py "Usuário não encontrado.")
  | Some user =>
      if negb (truthy (User.recovery_code user))
         || bool_decide (User.recovery_code user ≠ Some recovery_code) then
        ret (false, py "Código de recuperação inválido.")
      else if len new_password <? PASSWORD_MIN_LENGTH then
        ret (false, lit "A nova senha deve ter pelo menos " ++ str_of_int PASSWORD_MIN_LENGTH
                      ++ lit " caracteres.")
      else
        h ← hash_password new_password;
        modify (λ w, set_users
          (<[ username := set_recovery_code None (set_password h user) ]> (users w)) w);;
        save_data;;
        ret (true, lit "Senha redefinida com sucesso!")
  end.

(** [LoginSystem.__init__] *)
Definition init : M unit :=
  modify (set_users ∅);;
  modify (set_login_attempts ∅);;
  load_data.

End LoginSystem.

(** ** The outcomes of section 7 of the specification, as the messages the
    code returns for them *)

Definition DuplicateUser : str := py "Usuário já existe.".
Definition PasswordTooShort : str :=
  lit "A senha deve ter pelo menos " ++ str_of_int PASSWORD_MIN_LENGTH ++ lit " caracteres.".
Definition PasswordMismatch : str := py "As senhas não conferem.".
Definition Registered : str := py "Usuário registrado com sucesso!".
Definition UserNotFound : str := py "Usuário não encontrado.".
(** Lockout in effect, with the seconds reported. *)
Definition AccountLocked (remaining : Z) : str :=
  lit "Conta bloqueada. Tente novamente em " ++ str_of_int remaining ++ lit " segundos.".
(** Lockout newly triggered, with its duration. *)
Definition AccountLockedNow : str :=
  lit "Conta bloqueada por " ++ str_of_int (LOCKOUT_TIME `div` 60)
    ++ lit " minutos devido a muitas tentativas incorretas.".
Definition InvalidPassword (remaining : Z) : str :=
  lit "Senha incorreta. Tentativas restantes: " ++ str_of_int remaining ++ lit ".".
Definition LoggedIn : str := lit "Login realizado com sucesso!".
Definition InvalidRecoveryCode : str := py "Código de recuperação inválido.".
Definition NewPasswordTooShort : str :=
  lit "A nova senha deve ter pelo menos " ++ str_of_int PASSWORD_MIN_LENGTH ++ lit " caracteres.".
Definition PasswordReset : str := lit "Senha redefinida com sucesso!".

(** [failed_count] of the specification: an absent record counts as zero. *)
Definition failed_count (w : world) (username : str) : Z :=
  from_option Attempt.count 0%Z (login_attempts w !! username).

(** [lockout_until] of the specification. *)
Definition locked_until (w : world) (username : str) : option datetime :=
  login_attempts w !! username ≫= Attempt.lockout_until.


(** The world after [save_data]. *)
Definition saved (w : world) : world := (save_data w).2.

(** The attempt record after one more failure. *)
Definition one_more (w : world) (username : str) : Attempt.record :=
  let r := default (Attempt.Build 0 None) (login_attempts w !! username) in
  set_count (Attempt.count r + 1) r.

(** The [k] elements [random.choices] returns when the generator stands at
    draw [d]. *)
Fixpoint picked (random : nat → nat) (population : str) (k d : nat) : str :=
  match k with
  | O => []
  | S k' =>
      population !!! (random d `mod` length population)%nat
        :: picked random population k' (S d)
  end.

(** The generator has been read [k] more times. *)
Definition drawn (k : nat) (w : world) : world :=
  World (users w) (login_attempts w) (database_file w) (backup_file w)
        (attempts_file w) (ticks w) (k + draws w).

(** What holds of every attempt record of a reachable world. *)
Definition attempts_inv (la : gmap str Attempt.record) : Prop :=
  ∀ username r, la !! username = Some r →
    (0 ≤ Attempt.count r ≤ MAX_LOGIN_ATTEMPTS)%Z ∧
    (is_Some (Attempt.lockout_until r) ↔ Attempt.count r = MAX_LOGIN_ATTEMPTS).

(** A lowercase hexadecimal digit, as a code point. *)
Definition is_hex_digit (c : N) : bool :=
  ((48 <=? c) && (c <=? 57) || (97 <=? c) && (c <=? 102))%N.

(** The password check of line 227, as a value: [None] when [encode()]
    raises, otherwise whether the digests agree. *)
Definition digest_of (password : str) : option str :=
  Sha256.hexdigest <$> Utf8.encode password.

Definition check_password (u : User.record) (password : str) : option bool :=
  (λ h, bool_decide (User.password u = h)) <$> digest_of password.

(** The four operations a caller can issue after construction. *)
Inductive call :=
  | Register (username password confirm_password : str)
  | Authenticate (username password : str)
  | GenerateRecoveryCode (username : str)
  | ResetPassword (username recovery_code new_password : str).

Definition perform (clock : nat → datetime) (random : nat → nat) (c : call) : M (bool * str) :=
  match c with
  | Register u p c => register clock u p c
  | Authenticate u p => login clock u p
  | GenerateRecoveryCode u => generate_recovery_code random u
  | ResetPassword u c p => reset_password u c p
  end.

(** Worlds reachable from one whose attempt dictionary is empty. *)
Inductive reachable (clock : nat → datetime) (random : nat → nat) : world → Prop :=
  | reachable_start w : login_attempts w = ∅ → reachable clock random w
  | reachable_call w c :
      reachable clock random w → reachable clock random (perform clock random c w).2.


(** What [load_data] makes of the attempt file. *)
Definition stored_attempts (f : file (gmap str Attempt.record)) : gmap str Attempt.record :=
  match f with
  | Content la => la
  | Corrupt | Missing => ∅
  end.

(** No active lockout at the first clock reading of a call: none recorded,
    or one that has expired. *)
Definition unlocked (clock : nat → datetime) (w : world) (username : str) : Prop :=
  match locked_until w username with
  | None => True
  | Some L => (L ≤ clock (ticks w))%Z
  end.



(** Concrete inputs for the examples: a clock that advances one second per
    reading, a generator, and the world of a first run in which alice has
    registered. *)
Module Sample.
Definition clock (n : nat) : datetime := (1700000000000000 + 1000000 * Z.of_nat n)%Z.
Definition random (n : nat) : nat := (7 * n + 3)%nat.
Definition alice : str := lit "alice".
Definition first_run : world := (init clock (World ∅ ∅ Missing Missing Missing 0 0)).2.
Definition registered : world :=
  (register clock alice (lit "secret1") (lit "secret1") first_run).2.
Definition alice_record : User.record :=
  User.Build (lit "5b11618c2e44027877d0cd0921ed166b9f176f50587fc91e7534dd2946db77d6")
              (lit "user") 1700000001000000%Z None None.
(** Alice's record says she is locked out until one day and five seconds
    after the clock reading at [pos]. *)
Definition locked_for_a_day (pos : nat) : world :=
  World (users registered)
        {[ alice := Attempt.Build 3 (Some (clock pos + timedelta 86405)%Z) ]}
        (database_file registered) (backup_file registered)
        (Content {[ alice := Attempt.Build 3 (Some (clock pos + timedelta 86405)%Z) ]})
        2 0.
(** Her lockout ends between the reading at position 2 and the next one. *)
Definition about_to_unlock : world :=
  World (users registered)
        {[ alice := Attempt.Build 3 (Some (clock 2 + 500000)%Z) ]}
        (database_file registered) (backup_file registered)
        (Content {[ alice := Attempt.Build 3 (Some (clock 2 + 500000)%Z) ]})
        2 0.
(** A later run: the user file is unreadable and the attempt file still
    holds alice's lockout. *)
Definition restarted : world :=
  (init clock
     (World ∅ ∅ Corrupt Missing
            (Content {[ alice := Attempt.Build 3 (Some (clock 10 + timedelta 300)%Z) ]})
            10 0)).2.
(** A clock for the scenario of section 8: one second per reading, and more
    than LOCKOUT_TIME between the fifth reading and the sixth. *)
Definition scenario_clock (n : nat) : datetime :=
  if (n <? 5)%nat then clock n else (clock n + timedelta 400)%Z.
End Sample.

Arguments py : simpl never.
Arguments lit : simpl never.
Arguments str_of_int : simpl never.
Arguments Sha256.hexdigest : simpl never.
Arguments Utf8.encode : simpl never.
Arguments seconds : simpl never.
Arguments timedelta : simpl never.
#[global] Opaque lit py str_of_int Utf8.decode bytes_of.

Arguments choices : simpl never.
Arguments one_more : simpl never.

Ltac run0 :=
  unfold mbind, M_bind, mret, M_ret, bind, ret, raise, get, modify, now, save_data;
  cbv beta.

Ltac run := run0; simpl.

(** * Theorems *)

Example sha256_empty :
  Sha256.hexdigest [] =
  lit "e3b0c44298fc1c149afbf4c8996fb92427ae41e4649b934ca495991b7852b855".
Proof. vm_compute. reflexivity. Qed.

Example sha256_abc :
  Sha256.hexdigest (lit "abc") =
  lit "ba7816bf8f01cfea414140de5dae2223b00361a396177a9cb410ff61f20015ad".
Proof. vm_compute. reflexivity. Qed.

Example sha256_two_blocks :
  Sha256.hexdigest (replicate 56 97%N) =
  lit "b35439a4ac6f0948b6d6f9e3c6af0f5f590ce20f1bde7090ef7970686ec6738a".
Proof. vm_compute. reflexivity. Qed.

Example sha256_full_block :
  Sha256.hexdigest (replicate 64 97%N) =
  lit "ffe054fe7ae0cb6dc65c3af9b61d5209f439851db43d0ba5997337df154668eb".
Proof. vm_compute. reflexivity. Qed.

Example utf8_sha256_non_ascii :
  Sha256.hexdigest <$> Utf8.encode [0x1F600; 0x20AC]%N =
  Some (lit "d78e111157a428afc5cdbad963f979e1efff190f3967263a0dc42f4d5985c4c2").
Proof. vm_compute. reflexivity. Qed.

Example utf8_boundaries :
  Utf8.encode [0x7F; 0x80; 0x7FF; 0x800; 0xD7FF; 0xE000; 0xFFFF; 0x10000; 0x10FFFF]%N =
  Some [127; 194; 128; 223; 191; 224; 160; 128; 237; 159; 191; 238; 128; 128;
        239; 191; 191; 240; 144; 128; 128; 244; 143; 191; 191]%N.
Proof. vm_compute. reflexivity. Qed.

Example utf8_lone_surrogate : Utf8.encode (lit "abc" ++ [0xDC80]%N) = None.
Proof. vm_compute. reflexivity. Qed.

Example utf8_message_round_trip :
  Utf8.encode UserNotFound = Some (bytes_of "Usuário não encontrado.").
Proof. vm_compute. reflexivity. Qed.

Example py_literal : py "não" = [110; 227; 111]%N.
Proof. vm_compute. reflexivity. Qed.

Example str_of_int_negative : str_of_int (-45) = lit "-45".
Proof. vm_compute. reflexivity. Qed.

Example seconds_of_negative : seconds (-1) = 86399%Z.
Proof. reflexivity. Qed.

Example seconds_of_days : seconds (timedelta 86405) = 5%Z.
Proof. reflexivity. Qed.

Lemma encode_char_is_Some c :
  is_Some (Utf8.encode_char c) ↔ (c < 0x110000)%N ∧ Utf8.is_surrogate c = false.
Proof.
  unfold Utf8.encode_char, Utf8.is_surrogate.
  destruct (N.ltb_spec c 0x80); [split; [intros _; split; [lia|]|eauto]|].
  { rewrite andb_false_iff. left. apply N.leb_gt. lia. }
  destruct (N.ltb_spec c 0x800); [split; [intros _; split; [lia|]|eauto]|].
  { rewrite andb_false_iff. left. apply N.leb_gt. lia. }
  destruct (N.ltb_spec c 0x10000).
  { destruct (N.leb_spec 0xD800 c), (N.leb_spec c 0xDFFF); simpl;
      split; try (intros [? [=]]); try (intros [_ [=]]); try (intros _; split; [lia|done]);
      eauto; (split; [lia|done]). }
  destruct (N.ltb_spec c 0x110000).
  - split; [intros _; split; [lia|]|eauto].
    rewrite andb_false_iff. right. apply N.leb_gt. lia.
  - split; [intros [? [=]]|]. intros [? _]. lia.
Qed.

Lemma encode_cons c s :
  Utf8.encode (c :: s) =
  match Utf8.encode_char c, Utf8.encode s with
  | Some bs, Some rest => Some (bs ++ rest)
  | _, _ => None
  end.
Proof. reflexivity. Qed.

(** [encode()] accepts exactly the strings of Unicode scalar values. *)
Lemma encodable_iff s :
  encodable s ↔ Forall (λ c, (c < 0x110000)%N ∧ Utf8.is_surrogate c = false) s.
Proof.
  unfold encodable. induction s as [|c s IH].
  - split; [constructor|]. intros _. by exists [].
  - rewrite Forall_cons, <- IH, <- encode_char_is_Some, encode_cons.
    destruct (Utf8.encode_char c), (Utf8.encode s); split;
      try (intros [? [=]]); try (intros [[? [=]] ?]); try (intros [? [? [=]]]); eauto.
Qed.

(** The digest exists exactly for the passwords that encode. *)
Lemma digest_of_is_Some password : is_Some (digest_of password) ↔ encodable password.
Proof. unfold digest_of, encodable. by rewrite fmap_is_Some. Qed.

Lemma hash_password_run password w :
  hash_password password w =
  (match digest_of password with
   | Some h => Return h
   | None => Raise UnicodeEncodeError
   end, w).
Proof.
  unfold hash_password, digest_of.
  destruct (Utf8.encode password); reflexivity.
Qed.

(** *** The lockout check (lines 214-224) *)

Lemma check_lockout_free clock username w :
  locked_until w username = None →
  check_lockout clock username w = (Return None, w).
Proof.
  unfold locked_until, check_lockout. run.
  destruct (login_attempts w !! username) as [r|]; simpl; [|done].
  intros ->. reflexivity.
Qed.

Lemma check_lockout_active clock username w L :
  locked_until w username = Some L →
  (clock (ticks w) < L)%Z →
  check_lockout clock username w =
  (Return (Some (seconds (L - clock (S (ticks w))))), tick (tick w)).
Proof.
  unfold locked_until, check_lockout. run.
  destruct (login_attempts w !! username) as [r|]; simpl; [|done].
  intros -> Hlt. simpl.
  destruct (Z.ltb_spec (clock (ticks w)) L); [reflexivity|lia].
Qed.

Lemma check_lockout_expired clock username w L :
  locked_until w username = Some L →
  (L ≤ clock (ticks w))%Z →
  check_lockout clock username w =
  (Return None,
   set_login_attempts (<[ username := Attempt.Build 0 None ]> (login_attempts w)) (tick w)).
Proof.
  unfold locked_until, check_lockout. run.
  destruct (login_attempts w !! username) as [r|]; simpl; [|done].
  intros -> Hle. simpl.
  destruct (Z.ltb_spec (clock (ticks w)) L); [lia|reflexivity].
Qed.

(** *** The password check (lines 226-251) *)

Lemma verify_password_raise clock username u password w :
  check_password u password = None →
  verify_password clock username u password w = (Raise UnicodeEncodeError, w).
Proof.
  unfold check_password, verify_password. run. rewrite hash_password_run.
  destruct (digest_of password); [discriminate|reflexivity].
Qed.

Lemma verify_password_wrong clock username u password w :
  check_password u password = Some false →
  verify_password clock username u password w =
  if (MAX_LOGIN_ATTEMPTS <=? Attempt.count (one_more w username))%Z then
    (Return (false, AccountLockedNow),
     saved (set_login_attempts
       (<[ username := set_lockout_until
             (Some (clock (ticks w) + timedelta LOCKOUT_TIME)%Z) (one_more w username) ]>
          (<[ username := one_more w username ]> (login_attempts w))) (tick w)))
  else
    (Return (false, InvalidPassword (MAX_LOGIN_ATTEMPTS - Attempt.count (one_more w username))),
     saved (set_login_attempts (<[ username := one_more w username ]> (login_attempts w)) w)).
Proof.
  unfold check_password, verify_password. run. rewrite hash_password_run.
  destruct (digest_of password) as [h|]; [|discriminate]. simpl.
  intros [= Hne]. apply bool_decide_eq_false in Hne.
  rewrite bool_decide_true by done.
  fold (one_more w username).
  destruct (MAX_LOGIN_ATTEMPTS <=? _)%Z; reflexivity.
Qed.

Lemma verify_password_right clock username u password w :
  check_password u password = Some true →
  verify_password clock username u password w =
  (Return (true, LoggedIn),
   let w1 := match login_attempts w !! username with
             | Some r => set_login_attempts (<[ username := set_count 0 r ]> (login_attempts w)) w
             | None => w
             end in
   saved (set_users (<[ username := set_last_login (Some (clock (ticks w))) u ]> (users w))
            (tick w1))).
Proof.
  unfold check_password, verify_password. run. rewrite hash_password_run.
  destruct (digest_of password) as [h|]; [|discriminate]. simpl.
  intros [= Heq]. apply bool_decide_eq_true in Heq.
  rewrite bool_decide_false by (intros ?; done).
  destruct (login_attempts w !! username); reflexivity.
Qed.

(** *** [login], case by case *)

Lemma login_unknown clock username password w :
  users w !! username = None →
  login clock username password w = (Return (false, UserNotFound), w).
Proof.
  intros H. unfold login. run. rewrite H. reflexivity.
Qed.

Lemma login_locked clock username password w u L :
  users w !! username = Some u →
  locked_until w username = Some L →
  (clock (ticks w) < L)%Z →
  login clock username password w =
  (Return (false, AccountLocked (seconds (L - clock (S (ticks w))))), tick (tick w)).
Proof.
  intros Hu HL Hlt. unfold login. run. rewrite Hu.
  rewrite (check_lockout_active _ _ _ L) by done. reflexivity.
Qed.

Lemma login_free clock username password w u :
  users w !! username = Some u →
  locked_until w username = None →
  login clock username password w = verify_password clock username u password w.
Proof.
  intros Hu HL. unfold login. run. rewrite Hu.
  rewrite check_lockout_free by done. reflexivity.
Qed.

Lemma login_expired clock username password w u L :
  users w !! username = Some u →
  locked_until w username = Some L →
  (L ≤ clock (ticks w))%Z →
  login clock username password w =
  verify_password clock username u password
    (set_login_attempts (<[ username := Attempt.Build 0 None ]> (login_attempts w)) (tick w)).
Proof.
  intros Hu HL Hle. unfold login. run. rewrite Hu.
  rewrite (check_lockout_expired _ _ _ L) by done. reflexivity.
Qed.

Lemma one_more_eq w username :
  one_more w username =
  Attempt.Build (failed_count w username + 1) (locked_until w username).
Proof.
  unfold one_more, failed_count, locked_until.
  destruct (login_attempts w !! username) as [[c l]|]; reflexivity.
Qed.

Lemma login_wrong_below clock username password w u :
  users w !! username = Some u →
  locked_until w username = None →
  check_password u password = Some false →
  (failed_count w username + 1 < MAX_LOGIN_ATTEMPTS)%Z →
  login clock username password w =
  (Return (false, InvalidPassword (MAX_LOGIN_ATTEMPTS - (failed_count w username + 1))),
   saved (set_login_attempts
     (<[ username := Attempt.Build (failed_count w username + 1) None ]> (login_attempts w)) w)).
Proof.
  intros Hu HL Hp Hc. rewrite (login_free _ _ _ _ u), verify_password_wrong by done.
  rewrite one_more_eq, HL. simpl.
  destruct (Z.leb_spec MAX_LOGIN_ATTEMPTS (failed_count w username + 1)); [lia|reflexivity].
Qed.

Lemma login_wrong_reach clock username password w u :
  users w !! username = Some u →
  locked_until w username = None →
  check_password u password = Some false →
  (MAX_LOGIN_ATTEMPTS ≤ failed_count w username + 1)%Z →
  login clock username password w =
  (Return (false, AccountLockedNow),
   saved (set_login_attempts
     (<[ username := Attempt.Build (failed_count w username + 1)
                       (Some (clock (ticks w) + timedelta LOCKOUT_TIME)%Z) ]>
        (login_attempts w)) (tick w))).
Proof.
  intros Hu HL Hp Hc. rewrite (login_free _ _ _ _ u), verify_password_wrong by done.
  rewrite one_more_eq, HL. simpl.
  destruct (Z.leb_spec MAX_LOGIN_ATTEMPTS (failed_count w username + 1)); [|lia].
  unfold set_lockout_until. simpl. rewrite insert_insert_eq. reflexivity.
Qed.

Lemma login_wrong_expired clock username password w u L :
  users w !! username = Some u →
  locked_until w username = Some L →
  (L ≤ clock (ticks w))%Z →
  check_password u password = Some false →
  login clock username password w =
  (Return (false, InvalidPassword (MAX_LOGIN_ATTEMPTS - 1)),
   saved (set_login_attempts
     (<[ username := Attempt.Build 1 None ]>
        (<[ username := Attempt.Build 0 None ]> (login_attempts w))) (tick w))).
Proof.
  intros Hu HL Hle Hp.
  rewrite (login_expired clock username password w u L) by done.
  rewrite verify_password_wrong by done.
  rewrite one_more_eq. unfold failed_count, locked_until. simpl.
  rewrite lookup_insert_eq. reflexivity.
Qed.

(** Two more failures after a first one. *)
Lemma login_second_third clock username u p2 p3 w :
  users w !! username = Some u →
  failed_count w username = 1%Z →
  locked_until w username = None →
  check_password u p2 = Some false →
  check_password u p3 = Some false →
  let s2 := login clock username p2 w in
  let s3 := login clock username p3 s2.2 in
  s2.1 = Return (false, InvalidPassword 1) ∧ locked_until s2.2 username = None ∧
  ticks s2.2 = ticks w ∧
  s3.1 = Return (false, AccountLockedNow) ∧
  login_attempts s3.2 !! username =
    Some (Attempt.Build MAX_LOGIN_ATTEMPTS
            (Some (clock (ticks w) + timedelta LOCKOUT_TIME)%Z)).
Proof.
  intros Hu Hc HL Hp2 Hp3. cbv zeta.
  rewrite (login_wrong_below clock username p2 w u), Hc by (rewrite ?Hc; done).
  simpl.
  set (w2 := saved _).
  assert (Hu2 : users w2 !! username = Some u) by done.
  assert (Hc2 : failed_count w2 username = 2%Z).
  { unfold failed_count, w2. simpl. by rewrite lookup_insert_eq. }
  assert (HL2 : locked_until w2 username = None).
  { unfold locked_until, w2. simpl. by rewrite lookup_insert_eq. }
  rewrite (login_wrong_reach clock username p3 w2 u), Hc2 by (rewrite ?Hc2; done).
  simpl. rewrite lookup_insert_eq. done.
Qed.

(** C1. Take an existing user at the start of a run of failures: the
    attempt record is absent or clean, or holds a lockout that has expired.
    After exactly MAX_LOGIN_ATTEMPTS (three) consecutive calls of [login]
    with a wrong password the attempt record holds
    [lockout_until = now + LOCKOUT_TIME], [now] being the clock reading of
    the third call; the first two calls leave [lockout_until] unset. Every
    later call whose clock reading is before that instant returns the
    account-locked message and changes nothing but the clock position,
    whatever the password is, unencodable ones included: the password is not
    looked at. *)
Theorem C1_lockout_after_max_failures clock username u p1 p2 p3 w :
  users w !! username = Some u →
  (failed_count w username = 0%Z ∧ locked_until w username = None) ∨
  (∃ L0, locked_until w username = Some L0 ∧ (L0 ≤ clock (ticks w))%Z) →
  check_password u p1 = Some false →
  check_password u p2 = Some false →
  check_password u p3 = Some false →
  let s1 := login clock username p1 w in
  let s2 := login clock username p2 s1.2 in
  let s3 := login clock username p3 s2.2 in
  let L := (clock (ticks s2.2) + timedelta LOCKOUT_TIME)%Z in
  s1.1 = Return (false, InvalidPassword 2) ∧ locked_until s1.2 username = None ∧
  s2.1 = Return (false, InvalidPassword 1) ∧ locked_until s2.2 username = None ∧
  s3.1 = Return (false, AccountLockedNow) ∧
  login_attempts s3.2 !! username = Some (Attempt.Build MAX_LOGIN_ATTEMPTS (Some L)) ∧
  ∀ w' password,
    is_Some (users w' !! username) →
    login_attempts w' !! username = login_attempts s3.2 !! username →
    (clock (ticks w') < L)%Z →
    login clock username password w' =
    (Return (false, AccountLocked (seconds (L - clock (S (ticks w'))))), tick (tick w')).
Proof.
  intros Hu Hstart Hp1 Hp2 Hp3. cbv zeta.
  assert (H1 : (login clock username p1 w).1 = Return (false, InvalidPassword 2) ∧
               users (login clock username p1 w).2 !! username = Some u ∧
               failed_count (login clock username p1 w).2 username = 1%Z ∧
               locked_until (login clock username p1 w).2 username = None).
  { destruct Hstart as [[Hc HL]|(L0 & HL & Hle)].
    - rewrite (login_wrong_below clock username p1 w u), Hc by (rewrite ?Hc; done).
      unfold failed_count, locked_until. simpl. rewrite lookup_insert_eq. done.
    - rewrite (login_wrong_expired clock username p1 w u L0) by done.
      unfold failed_count, locked_until. simpl. rewrite lookup_insert_eq. done. }
  destruct H1 as (Hr1 & Hu1 & Hc1 & HL1).
  destruct (login_second_third clock username u p2 p3 _ Hu1 Hc1 HL1 Hp2 Hp3)
    as (Hr2 & HL2 & Ht2 & Hr3 & Hrec).
  rewrite Ht2.
  repeat split; try done.
  intros w' password [u' Hu'] Hw' Hlt.
  rewrite Hrec in Hw'.
  apply (login_locked clock username password w' u'); [done| |done].
  unfold locked_until. by rewrite Hw'.
Qed.

Lemma C1_witness :
  let w := Sample.registered in
  let s1 := login Sample.clock Sample.alice (lit "wrong") w in
  let s2 := login Sample.clock Sample.alice (lit "wrong") s1.2 in
  let s3 := login Sample.clock Sample.alice (lit "wrong") s2.2 in
  s3.1 = Return (false, AccountLockedNow) ∧
  login_attempts s3.2 !! Sample.alice =
    Some (Attempt.Build 3 (Some 1700000302000000%Z)) ∧
  (login Sample.clock Sample.alice (lit "secret1") s3.2).1 =
    Return (false, AccountLocked 298).
Proof.
  pose proof (C1_lockout_after_max_failures Sample.clock Sample.alice Sample.alice_record
    (lit "wrong") (lit "wrong") (lit "wrong") Sample.registered) as H.
  destruct H as (_ & _ & _ & _ & H3 & Hr & Hlock);
    [vm_compute; reflexivity | left; vm_compute; split; reflexivity
    | vm_compute; reflexivity ..|].
  cbv zeta. split; [exact H3|]. split; [exact Hr|].
  rewrite Hlock; [vm_compute; reflexivity| vm_compute; eauto | reflexivity | vm_compute; reflexivity].
Defined.

(** C2. When the attempt record of an existing user holds a [lockout_until]
    that is not after the clock reading of the call, [login] first replaces
    the record by [count = 0] without [lockout_until] and only then runs
    the password check on that cleared world, whatever the password is. A
    correct password then succeeds with [failed_count = 0]; a wrong one
    counts as the first failure of a fresh budget; an unencodable one
    raises, the record staying cleared. *)
Theorem C2_expired_lockout_cleared clock username u r L password w :
  users w !! username = Some u →
  login_attempts w !! username = Some r →
  Attempt.lockout_until r = Some L →
  (L ≤ clock (ticks w))%Z →
  let cleared :=
    set_login_attempts (<[ username := Attempt.Build 0 None ]> (login_attempts w)) (tick w) in
  let s := login clock username password w in
  s = verify_password clock username u password cleared ∧
  locked_until s.2 username = None ∧
  match check_password u password with
  | Some true =>
      s.1 = Return (true, LoggedIn) ∧ failed_count s.2 username = 0%Z ∧
      User.last_login <$> users s.2 !! username = Some (Some (clock (S (ticks w))))
  | Some false =>
      s.1 = Return (false, InvalidPassword (MAX_LOGIN_ATTEMPTS - 1)) ∧
      failed_count s.2 username = 1%Z
  | None =>
      s.1 = Raise UnicodeEncodeError ∧ failed_count s.2 username = 0%Z
  end.
Proof.
  intros Hu Hr HL Hle. cbv zeta.
  assert (HL' : locked_until w username = Some L).
  { unfold locked_until. by rewrite Hr. }
  rewrite (login_expired clock username password w u L) by done.
  split; [reflexivity|].
  set (w1 := set_login_attempts _ _).
  assert (H0 : login_attempts w1 !! username = Some (Attempt.Build 0 None)).
  { unfold w1. simpl. by rewrite lookup_insert_eq. }
  destruct (check_password u password) as [[]|] eqn:Hp.
  - rewrite verify_password_right by done. rewrite H0. simpl.
    unfold locked_until, failed_count. simpl.
    rewrite !lookup_insert_eq. done.
  - rewrite verify_password_wrong by done.
    rewrite one_more_eq. unfold failed_count, locked_until at 1 2 3. rewrite H0. simpl.
    unfold locked_until, failed_count. simpl.
    rewrite !lookup_insert_eq. done.
  - rewrite verify_password_raise by done. simpl.
    unfold locked_until, failed_count. rewrite H0. done.
Qed.

Lemma C2_witness :
  let w := (login Sample.clock Sample.alice (lit "wrong")
             (login Sample.clock Sample.alice (lit "wrong")
               (login Sample.clock Sample.alice (lit "wrong") Sample.registered).2).2).2 in
  let later := World (users w) (login_attempts w) (database_file w) (backup_file w)
                     (attempts_file w) 400 (draws w) in
  let s := login Sample.clock Sample.alice (lit "secret1") later in
  s.1 = Return (true, LoggedIn) ∧ failed_count s.2 Sample.alice = 0%Z ∧
  locked_until s.2 Sample.alice = None.
Proof.
  cbv zeta.
  match goal with |- (login _ _ _ ?w).1 = _ ∧ _ =>
    pose proof (C2_expired_lockout_cleared Sample.clock Sample.alice Sample.alice_record
      (Attempt.Build 3 (Some 1700000302000000%Z)) 1700000302000000%Z (lit "secret1") w) as H
  end.
  destruct H as (_ & HL & H); [vm_compute; reflexivity| vm_compute; reflexivity | reflexivity
                              | vm_compute; discriminate |].
  change (check_password Sample.alice_record (lit "secret1")) with (Some true) in H.
  destruct H as (H1 & H2 & _). auto.
Defined.

(** *** [login] and the attempt records *)

Ltac login_cases clock username password w :=
  let u := fresh "u" in
  let L := fresh "L" in
  let Hu := fresh "Hu" in
  let HL := fresh "HL" in
  let Hp := fresh "Hp" in
  let Ht := fresh "Ht" in
  destruct (users w !! username) as [u|] eqn:Hu;
  [ destruct (locked_until w username) as [L|] eqn:HL;
    [ destruct (Z.lt_ge_cases (clock (ticks w)) L) as [Ht|Ht];
      [ rewrite (login_locked clock username password w u L) by done
      | rewrite (login_expired clock username password w u L) by done;
        destruct (check_password u password) as [[]|] eqn:Hp;
        [ rewrite verify_password_right by done
        | rewrite verify_password_wrong by done
        | rewrite verify_password_raise by done ] ]
    | rewrite (login_free clock username password w u) by done;
      destruct (check_password u password) as [[]|] eqn:Hp;
      [ rewrite verify_password_right by done
      | rewrite verify_password_wrong by done
      | rewrite verify_password_raise by done ] ]
  | rewrite (login_unknown clock username password w) by done ].

Lemma login_other clock username password w x :
  x ≠ username →
  login_attempts (login clock username password w).2 !! x = login_attempts w !! x.
Proof.
  intros Hx.
  login_cases clock username password w; simpl;
    rewrite ?lookup_insert_eq; simpl;
    repeat match goal with
           | |- context [if ?b then _ else _] => destruct b; simpl
           | |- context [match login_attempts ?w !! ?k with _ => _ end] =>
               destruct (login_attempts w !! k); simpl
           end;
    rewrite ?lookup_insert_ne by done; reflexivity.
Qed.

Lemma login_users_dom clock username password w :
  dom (users (login clock username password w).2) = dom (users w).
Proof.
  login_cases clock username password w; simpl;
    rewrite ?lookup_insert_eq; simpl;
    repeat match goal with
           | |- context [if ?b then _ else _] => destruct b; simpl
           | |- context [match login_attempts ?w !! ?k with _ => _ end] =>
               destruct (login_attempts w !! k); simpl
           end;
    try reflexivity.
  all: by rewrite dom_insert_lookup_L.
Qed.

(** *** [register] *)

Lemma register_duplicate clock username password confirm_password w :
  is_Some (users w !! username) →
  register clock username password confirm_password w = (Return (false, DuplicateUser), w).
Proof.
  intros Hu. unfold register. run.
  rewrite decide_True by (by apply elem_of_dom). reflexivity.
Qed.

Lemma register_too_short clock username password confirm_password w :
  users w !! username = None →
  (len password < PASSWORD_MIN_LENGTH)%Z →
  register clock username password confirm_password w = (Return (false, PasswordTooShort), w).
Proof.
  intros Hu Hlen. unfold register. run.
  rewrite decide_False by (by apply not_elem_of_dom).
  destruct (Z.ltb_spec (len password) PASSWORD_MIN_LENGTH); [reflexivity|lia].
Qed.

Lemma register_mismatch clock username password confirm_password w :
  users w !! username = None →
  (PASSWORD_MIN_LENGTH ≤ len password)%Z →
  password ≠ confirm_password →
  register clock username password confirm_password w = (Return (false, PasswordMismatch), w).
Proof.
  intros Hu Hlen Hne. unfold register. run.
  rewrite decide_False by (by apply not_elem_of_dom).
  destruct (Z.ltb_spec (len password) PASSWORD_MIN_LENGTH); [lia|].
  rewrite bool_decide_true by done. reflexivity.
Qed.

Lemma register_new clock username password w :
  users w !! username = None →
  (PASSWORD_MIN_LENGTH ≤ len password)%Z →
  register clock username password password w =
  match digest_of password with
  | Some h =>
      (Return (true, Registered),
       saved (set_users
         (<[ username := User.Build h (lit "user") (clock (ticks w)) None None ]> (users w))
         (tick w)))
  | None => (Raise UnicodeEncodeError, w)
  end.
Proof.
  intros Hu Hlen. unfold register. run.
  rewrite decide_False by (by apply not_elem_of_dom).
  destruct (Z.ltb_spec (len password) PASSWORD_MIN_LENGTH); [lia|].
  rewrite bool_decide_false by (intros ?; done).
  rewrite hash_password_run. destruct (digest_of password); reflexivity.
Qed.

Lemma register_attempts clock username password confirm_password w :
  login_attempts (register clock username password confirm_password w).2 = login_attempts w.
Proof.
  destruct (users w !! username) as [u|] eqn:Hu.
  { by rewrite register_duplicate. }
  destruct (Z.lt_ge_cases (len password) PASSWORD_MIN_LENGTH).
  { by rewrite register_too_short. }
  destruct (decide (password = confirm_password)) as [<-|Hne].
  - rewrite register_new by done. by destruct (digest_of password).
  - by rewrite register_mismatch.
Qed.

(** *** [generate_recovery_code] and [reset_password] *)

Lemma choices_S random population k :
  choices random population (S k) =
  (c ← choice random population; cs ← choices random population k; mret (c :: cs)).
Proof. reflexivity. Qed.

Lemma choices_run random population k w :
  choices random population k w =
  (Return (picked random population k (draws w)), drawn k w).
Proof.
  revert w. induction k as [|k IH]; intros w.
  - by destruct w.
  - rewrite choices_S. unfold choice. run0. rewrite IH.
    unfold drawn. simpl. do 2 f_equal. f_equal. lia.
Qed.

Lemma length_picked random population k d :
  length (picked random population k d) = k.
Proof. revert d. induction k; intros d; simpl; [done|by rewrite IHk]. Qed.

Lemma generate_recovery_code_unknown random username w :
  users w !! username = None →
  generate_recovery_code random username w = (Return (false, UserNotFound), w).
Proof. intros Hu. unfold generate_recovery_code. run0. by rewrite Hu. Qed.

Lemma generate_recovery_code_known random username w u :
  users w !! username = Some u →
  let code := picked random (ascii_uppercase ++ digits) 8 (draws w) in
  generate_recovery_code random username w =
  (Return (true, code),
   saved (set_users (<[ username := set_recovery_code (Some code) u ]> (users w))
            (drawn 8 w))).
Proof.
  intros Hu. unfold generate_recovery_code. run0. rewrite Hu.
  rewrite choices_run. reflexivity.
Qed.

Lemma reset_password_unknown username recovery_code new_password w :
  users w !! username = None →
  reset_password username recovery_code new_password w = (Return (false, UserNotFound), w).
Proof. intros Hu. unfold reset_password. run. by rewrite Hu. Qed.

Lemma reset_password_invalid username recovery_code new_password w u :
  users w !! username = Some u →
  truthy (User.recovery_code u) = false ∨ User.recovery_code u ≠ Some recovery_code →
  reset_password username recovery_code new_password w =
  (Return (false, InvalidRecoveryCode), w).
Proof.
  intros Hu Hc. unfold reset_password. run. rewrite Hu.
  destruct Hc as [->|Hne]; [reflexivity|].
  rewrite bool_decide_true by done. rewrite orb_true_r. reflexivity.
Qed.

Lemma reset_password_too_short username recovery_code new_password w u :
  users w !! username = Some u →
  recovery_code ≠ [] →
  User.recovery_code u = Some recovery_code →
  (len new_password < PASSWORD_MIN_LENGTH)%Z →
  reset_password username recovery_code new_password w =
  (Return (false, NewPasswordTooShort), w).
Proof.
  intros Hu Hne Hc Hlen. unfold reset_password. run. rewrite Hu, Hc.
  destruct recovery_code; [done|]. simpl.
  rewrite bool_decide_false by (intros ?; done).
  destruct (Z.ltb_spec (len new_password) PASSWORD_MIN_LENGTH); [reflexivity|lia].
Qed.

Lemma reset_password_valid username recovery_code new_password w u :
  users w !! username = Some u →
  recovery_code ≠ [] →
  User.recovery_code u = Some recovery_code →
  (PASSWORD_MIN_LENGTH ≤ len new_password)%Z →
  reset_password username recovery_code new_password w =
  match digest_of new_password with
  | Some h =>
      (Return (true, PasswordReset),
       saved (set_users (<[ username := set_recovery_code None (set_password h u) ]> (users w)) w))
  | None => (Raise UnicodeEncodeError, w)
  end.
Proof.
  intros Hu Hne Hc Hlen. unfold reset_password. run. rewrite Hu, Hc.
  destruct recovery_code; [done|]. simpl.
  rewrite bool_decide_false by (intros ?; done).
  destruct (Z.ltb_spec (len new_password) PASSWORD_MIN_LENGTH); [lia|].
  rewrite hash_password_run. destruct (digest_of new_password); reflexivity.
Qed.

Lemma generate_recovery_code_attempts random username w :
  login_attempts (generate_recovery_code random username w).2 = login_attempts w.
Proof.
  destruct (users w !! username) as [u|] eqn:Hu.
  - by rewrite (generate_recovery_code_known _ _ _ u).
  - by rewrite generate_recovery_code_unknown.
Qed.

Lemma reset_password_attempts username recovery_code new_password w :
  login_attempts (reset_password username recovery_code new_password w).2 = login_attempts w.
Proof.
  unfold reset_password. run.
  destruct (users w !! username) as [u|]; [|done].
  destruct (_ || _); [done|].
  destruct (_ <? _)%Z; [done|].
  rewrite hash_password_run. by destruct (digest_of new_password).
Qed.

Lemma perform_attempts_other clock random c w x :
  (∀ password, c ≠ Authenticate x password) →
  login_attempts (perform clock random c w).2 !! x = login_attempts w !! x.
Proof.
  intros Hc. destruct c as [u p c|u p|u|u c p]; simpl.
  - by rewrite register_attempts.
  - apply login_other. intros ->. by eapply Hc.
  - by rewrite generate_recovery_code_attempts.
  - by rewrite reset_password_attempts.
Qed.

Lemma init_attempts clock w :
  login_attempts (init clock w).2 =
  match database_file w with
  | Missing => ∅
  | Corrupt | Content _ => stored_attempts (attempts_file w)
  end.
Proof.
  unfold init, load_data. run0. simpl.
  destruct (database_file w) eqn:Hdb; simpl.
  - rewrite hash_password_run. destruct (digest_of ADMIN_PASSWORD); simpl; reflexivity.
  - destruct (attempts_file w); reflexivity.
  - destruct (attempts_file w); reflexivity.
Qed.

(** C3. For an existing user with no active lockout (none recorded, or one
    that has expired at the clock reading of the call), a call of [login]
    with a wrong password leaves [failed_count] one above the count the
    password check starts from: the recorded count when no [lockout_until]
    is recorded (an absent record becomes one with count 1), and zero when
    an expired [lockout_until] was cleared first, so that the count restarts
    at 1. When the new count is below MAX_LOGIN_ATTEMPTS the call returns
    the invalid-password message with MAX_LOGIN_ATTEMPTS minus the new
    count. No call of [register], [login], [generate_recovery_code] or
    [reset_password] lowers the [failed_count] of any user, except a [login]
    of that user that succeeds or that finds an expired [lockout_until];
    [save_data] and [list_users] leave the attempt dictionary as it is; the
    constructor replaces it by what the attempt file holds (by the empty
    dictionary on a first run). *)
Theorem C3_failed_count_steps clock random :
  (∀ username u password w,
     users w !! username = Some u →
     unlocked clock w username →
     check_password u password = Some false →
     let s := login clock username password w in
     let start := match locked_until w username with
                  | None => failed_count w username
                  | Some _ => 0%Z
                  end in
     failed_count s.2 username = (start + 1)%Z ∧
     (login_attempts w !! username = None →
      login_attempts s.2 !! username = Some (Attempt.Build 1 None)) ∧
     ((failed_count s.2 username < MAX_LOGIN_ATTEMPTS)%Z →
      s.1 = Return (false, InvalidPassword (MAX_LOGIN_ATTEMPTS - failed_count s.2 username)))) ∧
  (∀ c w x,
     (failed_count (perform clock random c w).2 x < failed_count w x)%Z →
     ∃ password, c = Authenticate x password ∧
       ((perform clock random c w).1 = Return (true, LoggedIn) ∨
        ∃ L, locked_until w x = Some L ∧ (L ≤ clock (ticks w))%Z)) ∧
  (∀ w,
     login_attempts (save_data w).2 = login_attempts w ∧
     login_attempts (list_users w).2 = login_attempts w ∧
     login_attempts (init clock w).2 =
       match database_file w with
       | Missing => ∅
       | Corrupt | Content _ => stored_attempts (attempts_file w)
       end).
Proof.
  split; [|split].
  - intros username u password w Hu Hun Hp. cbv zeta.
    unfold unlocked in Hun.
    destruct (locked_until w username) as [L|] eqn:HL.
    { rewrite (login_wrong_expired clock username password w u L) by done.
      unfold failed_count. simpl. rewrite !lookup_insert_eq. simpl.
      split; [done|]. split; [|done].
      intros Hnone. unfold locked_until in HL. by rewrite Hnone in HL. }
    rewrite (login_free _ _ _ _ u), verify_password_wrong by done.
    rewrite one_more_eq, HL. cbn [Attempt.count].
    set (c := failed_count w username) in *.
    destruct (Z.leb_spec MAX_LOGIN_ATTEMPTS (c + 1)) as [Hge|Hlt];
      unfold failed_count; simpl; rewrite !lookup_insert_eq; simpl.
    + split; [done|]. split; [|intros ?; exfalso; lia].
      intros Hnone. exfalso. unfold c, failed_count in Hge. rewrite Hnone in Hge.
      simpl in Hge. unfold MAX_LOGIN_ATTEMPTS in Hge. lia.
    + split; [done|]. split; [|done].
      intros Hnone. unfold c, failed_count. by rewrite Hnone.
  - intros c w x Hdec.
    assert (Hsame : (∀ password, c ≠ Authenticate x password) → False).
    { intros Hno. unfold failed_count in Hdec.
      rewrite perform_attempts_other in Hdec by done. lia. }
    destruct c as [u p c|u password|u|u c p]; try (exfalso; by apply Hsame).
    destruct (decide (u = x)) as [->|Hne]; [|exfalso; apply Hsame; congruence].
    clear Hsame. exists password. split; [done|]. revert Hdec. simpl.
    login_cases clock x password w; simpl; intros Hdec.
    + exfalso. unfold failed_count in Hdec. simpl in Hdec. lia.
    + left. done.
    + right. eauto.
    + right. eauto.
    + left. done.
    + exfalso. rewrite one_more_eq in Hdec.
      destruct (_ <=? _)%Z; unfold failed_count at 1 in Hdec; simpl in Hdec;
        rewrite ?lookup_insert_eq in Hdec; simpl in Hdec; lia.
    + exfalso. lia.
    + exfalso. lia.
  - intros w. split; [reflexivity|]. split; [reflexivity|]. apply init_attempts.
Qed.

(** The claim as worded, at a user whose lockout has expired: she is not
    locked out, her password is wrong, and [failed_count] goes from 3 to 1,
    not to 4. *)
Lemma C3_counterexample :
  let locked := (login Sample.clock Sample.alice (lit "wrong")
                  (login Sample.clock Sample.alice (lit "wrong")
                    (login Sample.clock Sample.alice (lit "wrong") Sample.registered).2).2).2 in
  let w := World (users locked) (login_attempts locked) (database_file locked)
                 (backup_file locked) (attempts_file locked) 400 (draws locked) in
  let s := login Sample.clock Sample.alice (lit "wrong") w in
  users w !! Sample.alice = Some Sample.alice_record ∧
  locked_until w Sample.alice = Some 1700000302000000%Z ∧
  (1700000302000000 ≤ Sample.clock (ticks w))%Z ∧
  check_password Sample.alice_record (lit "wrong") = Some false ∧
  failed_count w Sample.alice = 3%Z ∧
  failed_count s.2 Sample.alice = 1%Z ∧
  failed_count s.2 Sample.alice ≠ (failed_count w Sample.alice + 1)%Z ∧
  s.1 = Return (false, InvalidPassword 2).
Proof.
  cbv zeta.
  split; [vm_compute; reflexivity|].
  split; [vm_compute; reflexivity|].
  split; [vm_compute; discriminate|].
  split; [vm_compute; reflexivity|].
  split; [vm_compute; reflexivity|].
  split; [vm_compute; reflexivity|].
  split; [vm_compute; discriminate|].
  vm_compute. reflexivity.
Qed.

Lemma C3_witness :
  let s := login Sample.clock Sample.alice (lit "wrong") Sample.registered in
  failed_count s.2 Sample.alice = 1%Z ∧ s.1 = Return (false, InvalidPassword 2).
Proof.
  pose proof (proj1 (C3_failed_count_steps Sample.clock Sample.random)
    Sample.alice Sample.alice_record (lit "wrong") Sample.registered) as H.
  destruct H as (Hc & _ & Hm);
    [vm_compute; reflexivity | vm_compute; exact I | vm_compute; reflexivity |].
  cbv zeta. split.
  - rewrite Hc. vm_compute. reflexivity.
  - rewrite Hm; [|rewrite Hc; vm_compute; reflexivity].
    rewrite Hc. vm_compute. reflexivity.
Defined.

(** *** The seconds reported while locked (line 219) *)

Lemma seconds_range d : (0 ≤ seconds d < 86400)%Z.
Proof.
  unfold seconds.
  pose proof (Z.mod_pos_bound d 86400000000 ltac:(lia)).
  split.
  - apply Z.div_pos; lia.
  - apply Z.div_lt_upper_bound; lia.
Qed.



(** C4. [login] on a record whose [lockout_until] is 86405 seconds after
    the clock: the call answers that the account is locked and to try again
    in 5 seconds, because [timedelta.seconds] leaves the days out. On a
    record whose [lockout_until] falls between the two readings of the
    clock that the call makes, it answers 86399 seconds. *)
Theorem C4_seconds_drops_days :
  let w := Sample.locked_for_a_day 3 in
  locked_until w Sample.alice = Some (Sample.clock 3 + timedelta 86405)%Z ∧
  (login Sample.clock Sample.alice (lit "secret1") w).1 =
    Return (false, AccountLocked 5) ∧
  let w' := Sample.about_to_unlock in
  locked_until w' Sample.alice = Some (Sample.clock 2 + 500000)%Z ∧
  (Sample.clock (ticks w') < Sample.clock 2 + 500000)%Z ∧
  (login Sample.clock Sample.alice (lit "secret1") w').1 =
    Return (false, AccountLocked 86399).
Proof.
  cbv zeta. repeat split; vm_compute; reflexivity.
Qed.

(** C5. For an existing user, [generate_recovery_code] returns an
    8-character code and stores it; [reset_password] with that code and an
    encodable new password of at least PASSWORD_MIN_LENGTH characters
    succeeds, puts the digest of the new password in the record and sets
    [recovery_code] to [None]; the same code is then refused, whatever new
    password comes with it, and the world stays as it is. *)
Theorem C5_recovery_code_single_use random username u new_password h w :
  users w !! username = Some u →
  (PASSWORD_MIN_LENGTH ≤ len new_password)%Z →
  digest_of new_password = Some h →
  let code := picked random (ascii_uppercase ++ digits) 8 (draws w) in
  let g := generate_recovery_code random username w in
  let r := reset_password username code new_password g.2 in
  g.1 = Return (true, code) ∧
  length code = 8%nat ∧
  users g.2 !! username = Some (set_recovery_code (Some code) u) ∧
  r.1 = Return (true, PasswordReset) ∧
  users r.2 !! username =
    Some (User.Build h (User.role u) (User.created_at u) (User.last_login u) None) ∧
  ∀ any_password,
    reset_password username code any_password r.2 = (Return (false, InvalidRecoveryCode), r.2).
Proof.
  intros Hu Hlen Hh. cbv zeta.
  set (code := picked _ _ _ _).
  assert (Hcode : length code = 8%nat) by apply length_picked.
  assert (Hne : code ≠ []) by (intros E; by rewrite E in Hcode).
  rewrite (generate_recovery_code_known random username w u) by done.
  cbv zeta. fold code. simpl.
  set (w1 := saved _).
  assert (Hu1 : users w1 !! username = Some (set_recovery_code (Some code) u)).
  { unfold w1. simpl. by rewrite lookup_insert_eq. }
  rewrite (reset_password_valid username code new_password w1 _ Hu1) by done.
  rewrite Hh. simpl.
  set (w2 := saved _).
  assert (Hu2 : users w2 !! username =
    Some (User.Build h (User.role u) (User.created_at u) (User.last_login u) None)).
  { unfold w2. simpl. by rewrite lookup_insert_eq. }
  repeat split; try done.
  intros any_password.
  apply (reset_password_invalid username code any_password w2 _ Hu2).
  left. reflexivity.
Qed.

(** The claim without the proviso on the new password: with the matching
    code and a new password of six lone surrogates (length 6), the digest
    raises, nothing is reset and the code stays on the record. *)
Lemma C5_counterexample :
  let g := generate_recovery_code Sample.random Sample.alice Sample.registered in
  let code := picked Sample.random (ascii_uppercase ++ digits) 8 (draws Sample.registered) in
  let new_password := replicate 6 0xDC80%N in
  let r := reset_password Sample.alice code new_password g.2 in
  g.1 = Return (true, code) ∧
  (PASSWORD_MIN_LENGTH ≤ len new_password)%Z ∧
  r.1 = Raise UnicodeEncodeError ∧
  r.1 ≠ Return (true, PasswordReset) ∧
  r.2 = g.2 ∧
  (User.recovery_code <$> users r.2 !! Sample.alice) = Some (Some code).
Proof.
  cbv zeta.
  split; [vm_compute; reflexivity|].
  split; [vm_compute; discriminate|].
  split; [vm_compute; reflexivity|].
  split; [vm_compute; discriminate|].
  split; [vm_compute; reflexivity|].
  vm_compute. reflexivity.
Qed.

Lemma C5_witness :
  let code := picked Sample.random (ascii_uppercase ++ digits) 8 (draws Sample.registered) in
  let g := generate_recovery_code Sample.random Sample.alice Sample.registered in
  let r := reset_password Sample.alice code (lit "newsecret") g.2 in
  g.1 = Return (true, code) ∧
  length code = 8%nat ∧
  users g.2 !! Sample.alice = Some (set_recovery_code (Some code) Sample.alice_record) ∧
  r.1 = Return (true, PasswordReset) ∧
  users r.2 !! Sample.alice =
    Some (User.Build
            (lit "b6bed3ad3df0730aa4c6648e99fdb106da2ef587da9ab31f13ff566518ea1b3d")
            (lit "user") 1700000001000000%Z None None) ∧
  ∀ any_password,
    reset_password Sample.alice code any_password r.2 =
    (Return (false, InvalidRecoveryCode), r.2).
Proof.
  apply (C5_recovery_code_single_use Sample.random Sample.alice Sample.alice_record
    (lit "newsecret")
    (lit "b6bed3ad3df0730aa4c6648e99fdb106da2ef587da9ab31f13ff566518ea1b3d")
    Sample.registered).
  - vm_compute. reflexivity.
  - vm_compute. discriminate.
  - vm_compute. reflexivity.
Defined.

Example recovery_code_sample :
  picked Sample.random (ascii_uppercase ++ digits) 8 0 = lit "DKRY5CJQ".
Proof. vm_compute. reflexivity. Qed.

(** C6. [register] checks, in this order, that the username is free, that
    the password has at least PASSWORD_MIN_LENGTH characters and that the
    confirmation equals it, and answers with the message of the first check
    that fails, leaving the world as it is. When all three pass (the
    password being encodable) it succeeds and stores a record with role
    [user] and the digest of the password, and a [login] that follows with
    the same username and password succeeds, provided no [lockout_until] is
    recorded for that username. *)
Theorem C6_register_then_login clock username password confirm_password w :
  let r := register clock username password confirm_password w in
  (is_Some (users w !! username) → r = (Return (false, DuplicateUser), w)) ∧
  (users w !! username = None → (len password < PASSWORD_MIN_LENGTH)%Z →
   r = (Return (false, PasswordTooShort), w)) ∧
  (users w !! username = None → (PASSWORD_MIN_LENGTH ≤ len password)%Z →
   password ≠ confirm_password →
   r = (Return (false, PasswordMismatch), w)) ∧
  (users w !! username = None → (PASSWORD_MIN_LENGTH ≤ len password)%Z →
   password = confirm_password →
   ∀ h, digest_of password = Some h →
     r.1 = Return (true, Registered) ∧
     users r.2 !! username = Some (User.Build h (lit "user") (clock (ticks w)) None None) ∧
     (locked_until w username = None →
      (login clock username password r.2).1 = Return (true, LoggedIn))).
Proof.
  cbv zeta. split; [|split; [|split]].
  - apply register_duplicate.
  - apply register_too_short.
  - apply register_mismatch.
  - intros Hu Hlen <- h Hh.
    rewrite register_new, Hh by done. simpl.
    rewrite lookup_insert_eq. split; [done|]. split; [done|].
    intros HL.
    set (u := User.Build _ _ _ _ _).
    set (w1 := saved _).
    assert (Hu1 : users w1 !! username = Some u).
    { unfold w1. simpl. by rewrite lookup_insert_eq. }
    rewrite (login_free clock username password w1 u Hu1) by done.
    rewrite verify_password_right; [done|].
    unfold check_password. rewrite Hh. simpl. by rewrite bool_decide_true.
Qed.

(** The claim without the proviso: after a restart on an unreadable user
    file, alice is not registered, registers, and is refused by [login]
    because of the lockout that the attempt file kept. *)
Lemma C6_counterexample :
  let w := Sample.restarted in
  let r := register Sample.clock Sample.alice (lit "secret1") (lit "secret1") w in
  users w !! Sample.alice = None ∧
  (PASSWORD_MIN_LENGTH ≤ len (lit "secret1"))%Z ∧
  r.1 = Return (true, Registered) ∧
  (login Sample.clock Sample.alice (lit "secret1") r.2).1 =
    Return (false, AccountLocked 298) ∧
  (login Sample.clock Sample.alice (lit "secret1") r.2).1 ≠ Return (true, LoggedIn).
Proof.
  cbv zeta. repeat split; try (vm_compute; reflexivity); vm_compute; discriminate.
Qed.

Lemma C6_witness :
  let r := register Sample.clock (lit "bob") (lit "hunter22") (lit "hunter22")
             Sample.registered in
  r.1 = Return (true, Registered) ∧
  users r.2 !! lit "bob" =
    Some (User.Build
            (lit "20d2fe5e369db54ec7090639a9dc30ec4d608604936239d39e2de07fda09eb0b")
            (lit "user") (Sample.clock (ticks Sample.registered)) None None) ∧
  (login Sample.clock (lit "bob") (lit "hunter22") r.2).1 = Return (true, LoggedIn).
Proof.
  destruct (proj2 (proj2 (proj2
    (C6_register_then_login Sample.clock (lit "bob") (lit "hunter22") (lit "hunter22")
       Sample.registered)))
    ltac:(vm_compute; reflexivity) ltac:(vm_compute; discriminate) eq_refl
    (lit "20d2fe5e369db54ec7090639a9dc30ec4d608604936239d39e2de07fda09eb0b")
    ltac:(vm_compute; reflexivity)) as (H1 & H2 & H3).
  cbv zeta. split; [exact H1|]. split; [exact H2|].
  apply H3. vm_compute. reflexivity.
Defined.

(** C7. On an existing user, [reset_password] returns one and the same
    pair, [False] with the invalid-code message, when the record holds no
    recovery code and when it holds one that differs from the code
    supplied. *)
Theorem C7_invalid_code_indistinguishable username w1 u1 code1 password1 w2 u2 code2 password2 :
  users w1 !! username = Some u1 →
  User.recovery_code u1 = None →
  users w2 !! username = Some u2 →
  is_Some (User.recovery_code u2) →
  User.recovery_code u2 ≠ Some code2 →
  (reset_password username code1 password1 w1).1 = Return (false, InvalidRecoveryCode) ∧
  (reset_password username code2 password2 w2).1 = Return (false, InvalidRecoveryCode) ∧
  (reset_password username code1 password1 w1).1 =
  (reset_password username code2 password2 w2).1.
Proof.
  intros Hu1 Hc1 Hu2 _ Hc2.
  rewrite (reset_password_invalid username code1 password1 w1 u1) by (rewrite ?Hc1; auto).
  rewrite (reset_password_invalid username code2 password2 w2 u2) by auto.
  done.
Qed.

Lemma C7_witness :
  let coded := (generate_recovery_code Sample.random Sample.alice Sample.registered).2 in
  (reset_password Sample.alice (lit "DKRY5CJQ") (lit "newsecret") Sample.registered).1 =
    Return (false, InvalidRecoveryCode) ∧
  (reset_password Sample.alice (lit "AAAAAAAA") (lit "newsecret") coded).1 =
    Return (false, InvalidRecoveryCode) ∧
  (reset_password Sample.alice (lit "DKRY5CJQ") (lit "newsecret") Sample.registered).1 =
  (reset_password Sample.alice (lit "AAAAAAAA") (lit "newsecret") coded).1.
Proof.
  apply (C7_invalid_code_indistinguishable Sample.alice
           Sample.registered Sample.alice_record (lit "DKRY5CJQ") (lit "newsecret")
           (generate_recovery_code Sample.random Sample.alice Sample.registered).2
           (set_recovery_code (Some (lit "DKRY5CJQ")) Sample.alice_record)
           (lit "AAAAAAAA") (lit "newsecret")).
  - vm_compute. reflexivity.
  - reflexivity.
  - vm_compute. reflexivity.
  - vm_compute. eauto.
  - vm_compute. discriminate.
Defined.

(** *** The digest *)

Lemma length_hex n x : length (Sha256.hex n x) = n.
Proof.
  revert x. induction n as [|n IH]; intros x; simpl; [done|].
  rewrite length_app, IH. simpl. lia.
Qed.

Lemma hexdigit_is_hex d : (d < 16)%N → is_hex_digit (Sha256.hexdigit d) = true.
Proof.
  intros Hd. unfold is_hex_digit, Sha256.hexdigit.
  destruct (N.ltb_spec d 10).
  - replace (48 <=? 48 + d)%N with true by (symmetry; apply N.leb_le; lia).
    replace (48 + d <=? 57)%N with true by (symmetry; apply N.leb_le; lia).
    reflexivity.
  - replace (97 <=? 87 + d)%N with true by (symmetry; apply N.leb_le; lia).
    replace (87 + d <=? 102)%N with true by (symmetry; apply N.leb_le; lia).
    apply orb_true_r.
Qed.

Lemma hex_is_hex n x : Forall (λ c, is_hex_digit c = true) (Sha256.hex n x).
Proof.
  revert x. induction n as [|n IH]; intros x; simpl; [constructor|].
  apply Forall_app. split; [apply IH|].
  constructor; [|constructor].
  apply hexdigit_is_hex.
  change 15%N with (N.ones 4). rewrite N.land_ones.
  apply N.mod_lt. done.
Qed.

Lemma hexdigest_shape msg :
  length (Sha256.hexdigest msg) = 64%nat ∧
  Forall (λ c, is_hex_digit c = true) (Sha256.hexdigest msg).
Proof.
  unfold Sha256.hexdigest. split.
  - rewrite !length_app, !length_hex. reflexivity.
  - rewrite !Forall_app. repeat split; apply hex_is_hex.
Qed.

Lemma digest_of_admin_password :
  digest_of ADMIN_PASSWORD =
  Some (lit "240be518fabd2724ddb6f04eeb1da5967448d7e831c08c8fa822809f74c720a9").
Proof. vm_compute. reflexivity. Qed.

Lemma load_data_first_run clock w :
  database_file w = Missing →
  users (load_data clock w).2 =
  {[ ADMIN_USERNAME :=
       User.Build (lit "240be518fabd2724ddb6f04eeb1da5967448d7e831c08c8fa822809f74c720a9")
                   (lit "admin") (clock (ticks w)) None None ]}.
Proof.
  intros Hdb. unfold load_data. run0. rewrite Hdb.
  rewrite hash_password_run, digest_of_admin_password. reflexivity.
Qed.

Lemma register_success clock username password confirm_password w :
  (register clock username password confirm_password w).1 = Return (true, Registered) →
  ∃ h, digest_of password = Some h ∧
       users (register clock username password confirm_password w).2 !! username =
       Some (User.Build h (lit "user") (clock (ticks w)) None None).
Proof.
  destruct (users w !! username) as [u|] eqn:Hu.
  { rewrite register_duplicate by eauto. simpl. intros [=]. }
  destruct (Z.lt_ge_cases (len password) PASSWORD_MIN_LENGTH).
  { rewrite register_too_short by done. simpl. intros [=]. }
  destruct (decide (password = confirm_password)) as [<-|Hne].
  2:{ rewrite register_mismatch by done. simpl. intros [=]. }
  rewrite register_new by done.
  destruct (digest_of password) as [h|]; simpl; [|intros [=]].
  intros _. exists h. by rewrite lookup_insert_eq.
Qed.

Lemma reset_password_cases username recovery_code new_password w :
  let r := reset_password username recovery_code new_password w in
  (r.2 = w ∧ r.1 ≠ Return (true, PasswordReset)) ∨
  (∃ u h, users w !! username = Some u ∧
          User.recovery_code u = Some recovery_code ∧ recovery_code ≠ [] ∧
          (PASSWORD_MIN_LENGTH ≤ len new_password)%Z ∧
          digest_of new_password = Some h ∧
          r = (Return (true, PasswordReset),
               saved (set_users
                 (<[ username := set_recovery_code None (set_password h u) ]> (users w)) w))).
Proof.
  cbv zeta.
  destruct (users w !! username) as [u|] eqn:Hu.
  2:{ left. by rewrite reset_password_unknown. }
  destruct (truthy (User.recovery_code u)) eqn:Ht.
  2:{ left. rewrite (reset_password_invalid _ _ _ _ u) by auto. done. }
  destruct (decide (User.recovery_code u = Some recovery_code)) as [Hc|Hc].
  2:{ left. rewrite (reset_password_invalid _ _ _ _ u) by auto. done. }
  assert (Hne : recovery_code ≠ []).
  { intros ->. rewrite Hc in Ht. done. }
  destruct (Z.lt_ge_cases (len new_password) PASSWORD_MIN_LENGTH).
  { left. rewrite (reset_password_too_short _ _ _ _ u) by done. done. }
  rewrite (reset_password_valid _ _ _ _ u) by done.
  destruct (digest_of new_password) as [h|] eqn:Hh.
  - right. exists u, h. done.
  - left. done.
Qed.

(** C8. [hash_password] is a function of its argument alone: it returns
    the same outcome in every world and changes no world; what it returns
    is always 64 lowercase hexadecimal digits, hence differs from any
    password that is not itself of that form. The records written by
    [register], by the first-run bootstrap of [load_data] and by
    [reset_password] hold in [password] exactly what [hash_password] returns
    for the password given. *)
Theorem C8_only_the_digest_is_stored clock :
  (∀ password w w',
     (hash_password password w).1 = (hash_password password w').1 ∧
     (hash_password password w).2 = w) ∧
  (∀ password w h,
     (hash_password password w).1 = Return h →
     length h = 64%nat ∧ Forall (λ c, is_hex_digit c = true) h ∧
     (length password ≠ 64%nat → h ≠ password)) ∧
  (∀ username password confirm_password w,
     let r := register clock username password confirm_password w in
     r.1 = Return (true, Registered) →
     ∃ h, (hash_password password w).1 = Return h ∧
          users r.2 !! username =
          Some (User.Build h (lit "user") (clock (ticks w)) None None)) ∧
  (∀ w,
     database_file w = Missing →
     ∃ h, (hash_password ADMIN_PASSWORD w).1 = Return h ∧ h ≠ ADMIN_PASSWORD ∧
          users (load_data clock w).2 =
          {[ ADMIN_USERNAME := User.Build h (lit "admin") (clock (ticks w)) None None ]}) ∧
  (∀ username recovery_code new_password w,
     let r := reset_password username recovery_code new_password w in
     r.1 = Return (true, PasswordReset) →
     ∃ u h, users w !! username = Some u ∧
            (hash_password new_password w).1 = Return h ∧
            users r.2 !! username =
            Some (User.Build h (User.role u) (User.created_at u) (User.last_login u) None)).
Proof.
  split; [|split; [|split; [|split]]].
  - intros password w w'. rewrite !hash_password_run. done.
  - intros password w h. rewrite hash_password_run. unfold digest_of.
    destruct (Utf8.encode password) as [bs|]; simpl; [|intros [=]].
    intros [= <-]. destruct (hexdigest_shape bs) as [Hlen Hhex].
    split; [done|]. split; [done|].
    intros Hp E. apply Hp. by rewrite <- E.
  - intros username password confirm_password w r Hr.
    destruct (register_success _ _ _ _ _ Hr) as (h & Hh & Hu).
    exists h. rewrite hash_password_run, Hh. done.
  - intros w Hdb. eexists. rewrite hash_password_run, digest_of_admin_password.
    split; [reflexivity|]. split; [|by apply load_data_first_run].
    vm_compute. discriminate.
  - intros username recovery_code new_password w r Hr.
    destruct (reset_password_cases username recovery_code new_password w)
      as [[_ Hno]|(u & h & Hu & _ & _ & _ & Hh & Hrun)]; [done|].
    exists u, h. rewrite hash_password_run, Hh. split; [done|]. split; [done|].
    unfold r. rewrite Hrun. simpl. by rewrite lookup_insert_eq.
Qed.

Lemma C8_witness :
  ∃ h, (hash_password (lit "secret1") Sample.first_run).1 = Return h ∧
       users Sample.registered !! Sample.alice =
       Some (User.Build h (lit "user") (Sample.clock (ticks Sample.first_run)) None None).
Proof.
  apply (proj1 (proj2 (proj2 (C8_only_the_digest_is_stored Sample.clock)))
           Sample.alice (lit "secret1") (lit "secret1") Sample.first_run).
  vm_compute. reflexivity.
Defined.

(** *** The attempt records of reachable worlds *)

Lemma attempt_inv_fresh (c : Z) :
  (0 ≤ c < MAX_LOGIN_ATTEMPTS)%Z →
  (0 ≤ Attempt.count (Attempt.Build c None) ≤ MAX_LOGIN_ATTEMPTS)%Z ∧
  (is_Some (Attempt.lockout_until (Attempt.Build c None)) ↔
   Attempt.count (Attempt.Build c None) = MAX_LOGIN_ATTEMPTS).
Proof.
  intros Hc. simpl. split; [lia|]. split.
  - intros [? [=]].
  - lia.
Qed.

Lemma failed_count_inv w username :
  attempts_inv (login_attempts w) →
  locked_until w username = None →
  (0 ≤ failed_count w username < MAX_LOGIN_ATTEMPTS)%Z.
Proof.
  unfold failed_count, locked_until. intros Hinv HL.
  destruct (login_attempts w !! username) as [r|] eqn:Hr; simpl in *.
  - destruct (Hinv _ _ Hr) as [Hc Hiff].
    assert (Attempt.count r ≠ MAX_LOGIN_ATTEMPTS).
    { intros E. apply Hiff in E. rewrite HL in E. by destruct E. }
    lia.
  - unfold MAX_LOGIN_ATTEMPTS. lia.
Qed.

Lemma login_inv clock username password w :
  attempts_inv (login_attempts w) →
  attempts_inv (login_attempts (login clock username password w).2).
Proof.
  intros Hinv x r Hx.
  destruct (decide (x = username)) as [->|Hne].
  2:{ rewrite login_other in Hx by done. by eapply Hinv. }
  revert Hx.
  login_cases clock username password w.
  - apply Hinv.
  - simpl. rewrite lookup_insert_eq. simpl. rewrite lookup_insert_eq.
    intros [= <-]. by apply attempt_inv_fresh.
  - rewrite one_more_eq. unfold failed_count, locked_until. simpl.
    rewrite lookup_insert_eq. simpl. rewrite lookup_insert_eq.
    intros [= <-]. by apply attempt_inv_fresh.
  - simpl. rewrite lookup_insert_eq. intros [= <-]. by apply attempt_inv_fresh.
  - pose proof (failed_count_inv w username Hinv HL) as Hc.
    unfold locked_until, failed_count in *.
    destruct (login_attempts w !! username) as [[c l]|] eqn:Hr; simpl in *; [|by rewrite Hr].
    rewrite lookup_insert_eq. subst l. intros [= <-]. apply attempt_inv_fresh. lia.
  - pose proof (failed_count_inv w username Hinv HL) as Hc.
    rewrite one_more_eq, HL. cbn [Attempt.count].
    remember (failed_count w username + 1)%Z as c eqn:Ec.
    destruct (Z.leb_spec MAX_LOGIN_ATTEMPTS c); simpl;
      rewrite lookup_insert_eq; intros [= <-]; simpl.
    + split; [lia|]. split; [intros _; lia|eauto].
    + apply attempt_inv_fresh. lia.
  - apply Hinv.
  - apply Hinv.
Qed.

Lemma perform_inv clock random c w :
  attempts_inv (login_attempts w) →
  attempts_inv (login_attempts (perform clock random c w).2).
Proof.
  intros Hinv. destruct c as [u p c|u p|u|u c p]; simpl.
  - by rewrite register_attempts.
  - by apply login_inv.
  - by rewrite generate_recovery_code_attempts.
  - by rewrite reset_password_attempts.
Qed.

Lemma reachable_inv clock random w :
  reachable clock random w → attempts_inv (login_attempts w).
Proof.
  induction 1 as [w Hempty|w c _ IH].
  - intros x r. rewrite Hempty, lookup_empty. intros [=].
  - by apply perform_inv.
Qed.

(** C9. In every world reachable from one with an empty attempt dictionary
    by calls of [register], [login], [generate_recovery_code] and
    [reset_password] (whatever their arguments and outcomes), each attempt
    record has [0 <= count <= MAX_LOGIN_ATTEMPTS], and holds a
    [lockout_until] only if its count equals MAX_LOGIN_ATTEMPTS. *)
Theorem C9_attempt_records_bounded clock random w :
  reachable clock random w →
  ∀ username r, login_attempts w !! username = Some r →
    (0 ≤ Attempt.count r ≤ MAX_LOGIN_ATTEMPTS)%Z ∧
    (is_Some (Attempt.lockout_until r) → Attempt.count r = MAX_LOGIN_ATTEMPTS).
Proof.
  intros Hreach username r Hr.
  destruct (reachable_inv clock random w Hreach username r Hr) as [Hc Hiff].
  split; [done|]. apply Hiff.
Qed.

Lemma C9_witness :
  let w := (perform Sample.clock Sample.random (Authenticate Sample.alice (lit "wrong"))
           (perform Sample.clock Sample.random (Authenticate Sample.alice (lit "wrong"))
           (perform Sample.clock Sample.random (Authenticate Sample.alice (lit "wrong"))
              Sample.registered).2).2).2 in
  let r := Attempt.Build 3 (Some 1700000302000000%Z) in
  login_attempts w !! Sample.alice = Some r ∧
  (0 ≤ Attempt.count r ≤ MAX_LOGIN_ATTEMPTS)%Z ∧
  Attempt.count r = MAX_LOGIN_ATTEMPTS.
Proof.
  cbv zeta.
  match goal with |- login_attempts ?w !! _ = Some ?r ∧ _ =>
    assert (Hr : login_attempts w !! Sample.alice = Some r) by (vm_compute; reflexivity);
    destruct (C9_attempt_records_bounded Sample.clock Sample.random w
                ltac:(do 3 apply reachable_call; apply reachable_start; reflexivity)
                Sample.alice r Hr) as [Hc Hl]
  end.
  split; [exact Hr|]. split; [exact Hc|]. apply Hl. simpl. eauto.
Defined.

(** C10. Whenever [reset_password] does not succeed (unknown user, code
    absent or different, new password too short, or an exception of the
    digest), the world it leaves is the world it found. With the stored
    code and a too short new password it answers that the password is too
    short, the code stays on the record, and a later call with the same
    code and an acceptable password succeeds. *)
Theorem C10_failed_reset_changes_nothing username recovery_code new_password w :
  let r := reset_password username recovery_code new_password w in
  (r.1 ≠ Return (true, PasswordReset) → r.2 = w) ∧
  (∀ msg, r.1 = Return (false, msg) →
     r.2 = w ∧ msg ∈ [UserNotFound; InvalidRecoveryCode; NewPasswordTooShort]) ∧
  (∀ u, users w !! username = Some u →
        User.recovery_code u = Some recovery_code → recovery_code ≠ [] →
        (len new_password < PASSWORD_MIN_LENGTH)%Z →
        r = (Return (false, NewPasswordTooShort), w) ∧
        (User.recovery_code <$> users r.2 !! username) = Some (Some recovery_code) ∧
        ∀ password h, (PASSWORD_MIN_LENGTH ≤ len password)%Z →
          digest_of password = Some h →
          (reset_password username recovery_code password r.2).1 =
          Return (true, PasswordReset)).
Proof.
  cbv zeta. split; [|split].
  - intros Hfail.
    destruct (reset_password_cases username recovery_code new_password w)
      as [[Hw _]|(u & h & _ & _ & _ & _ & _ & Hrun)]; [done|].
    rewrite Hrun in Hfail. done.
  - intros msg Hmsg.
    destruct (users w !! username) as [u|] eqn:Hu.
    2:{ rewrite reset_password_unknown in * by done. simpl in *.
        injection Hmsg as <-. split; [done|]. apply list_elem_of_here. }
    destruct (truthy (User.recovery_code u)) eqn:Ht.
    2:{ rewrite (reset_password_invalid _ _ _ _ u) in * by auto. simpl in *.
        injection Hmsg as <-. split; [done|].
        apply list_elem_of_further, list_elem_of_here. }
    destruct (decide (User.recovery_code u = Some recovery_code)) as [Hc|Hc].
    2:{ rewrite (reset_password_invalid _ _ _ _ u) in * by auto. simpl in *.
        injection Hmsg as <-. split; [done|].
        apply list_elem_of_further, list_elem_of_here. }
    assert (Hne : recovery_code ≠ []).
    { intros ->. rewrite Hc in Ht. done. }
    destruct (Z.lt_ge_cases (len new_password) PASSWORD_MIN_LENGTH).
    { rewrite (reset_password_too_short _ _ _ _ u) in * by done. simpl in *.
      injection Hmsg as <-. split; [done|].
      do 2 apply list_elem_of_further. apply list_elem_of_here. }
    rewrite (reset_password_valid _ _ _ _ u) in Hmsg by done.
    destruct (digest_of new_password); simpl in Hmsg; discriminate.
  - intros u Hu Hc Hne Hlen.
    rewrite (reset_password_too_short _ _ _ _ u) by done. simpl.
    split; [done|]. rewrite Hu. simpl. rewrite Hc. split; [done|].
    intros password h Hp Hh.
    rewrite (reset_password_valid _ _ _ _ u) by done. by rewrite Hh.
Qed.

Lemma C10_witness :
  let coded := (generate_recovery_code Sample.random Sample.alice Sample.registered).2 in
  let code := lit "DKRY5CJQ" in
  let r := reset_password Sample.alice code (lit "abc") coded in
  r = (Return (false, NewPasswordTooShort), coded) ∧
  (User.recovery_code <$> users r.2 !! Sample.alice) = Some (Some code) ∧
  (reset_password Sample.alice code (lit "newsecret") r.2).1 = Return (true, PasswordReset).
Proof.
  cbv zeta.
  destruct (proj2 (proj2 (C10_failed_reset_changes_nothing Sample.alice (lit "DKRY5CJQ")
      (lit "abc") (generate_recovery_code Sample.random Sample.alice Sample.registered).2))
    (set_recovery_code (Some (lit "DKRY5CJQ")) Sample.alice_record)
    ltac:(vm_compute; reflexivity) ltac:(vm_compute; reflexivity)
    ltac:(vm_compute; discriminate) ltac:(vm_compute; reflexivity))
    as (H1 & H2 & H3).
  split; [exact H1|]. split; [exact H2|].
  apply (H3 (lit "newsecret")
            (lit "b6bed3ad3df0730aa4c6648e99fdb106da2ef587da9ab31f13ff566518ea1b3d")).
  - vm_compute. discriminate.
  - vm_compute. reflexivity.
Defined.

(** *** Attempt records belong to registered users *)

Lemma register_users_mono clock username password confirm_password w x :
  is_Some (users w !! x) →
  is_Some (users (register clock username password confirm_password w).2 !! x).
Proof.
  intros Hx.
  destruct (users w !! username) as [u|] eqn:Hu.
  { by rewrite register_duplicate. }
  destruct (Z.lt_ge_cases (len password) PASSWORD_MIN_LENGTH).
  { by rewrite register_too_short. }
  destruct (decide (password = confirm_password)) as [<-|Hne].
  2:{ by rewrite register_mismatch. }
  rewrite register_new by done.
  destruct (digest_of password); simpl; [|done].
  rewrite lookup_insert. case_decide; [eauto|done].
Qed.

Lemma generate_recovery_code_users_dom random username w :
  dom (users (generate_recovery_code random username w).2) = dom (users w).
Proof.
  destruct (users w !! username) as [u|] eqn:Hu.
  - rewrite (generate_recovery_code_known _ _ _ u) by done. simpl.
    by rewrite dom_insert_lookup_L.
  - by rewrite generate_recovery_code_unknown.
Qed.

Lemma reset_password_users_dom username recovery_code new_password w :
  dom (users (reset_password username recovery_code new_password w).2) = dom (users w).
Proof.
  destruct (reset_password_cases username recovery_code new_password w)
    as [[-> _]|(u & h & Hu & _ & _ & _ & _ & ->)]; [done|].
  simpl. by rewrite dom_insert_lookup_L.
Qed.

Lemma reachable_attempts_registered clock random w :
  reachable clock random w →
  ∀ x, is_Some (login_attempts w !! x) → is_Some (users w !! x).
Proof.
  induction 1 as [w Hempty|w c _ IH]; intros x.
  { rewrite Hempty, lookup_empty. by intros [? [=]]. }
  destruct c as [u p c|u p|u|u c p]; simpl.
  - rewrite register_attempts. intros Hx. by apply register_users_mono, IH.
  - rewrite <- !elem_of_dom, login_users_dom, !elem_of_dom.
    destruct (decide (x = u)) as [->|Hne].
    + destruct (users w !! u) as [u'|] eqn:Hu; [eauto|].
      rewrite login_unknown by done. simpl. rewrite <- Hu. apply IH.
    + rewrite login_other by done. apply IH.
  - rewrite generate_recovery_code_attempts.
    rewrite <- (elem_of_dom (users _)), generate_recovery_code_users_dom, elem_of_dom.
    apply IH.
  - rewrite reset_password_attempts.
    rewrite <- (elem_of_dom (users _)), reset_password_users_dom, elem_of_dom.
    apply IH.
Qed.

(** In a world reached from an empty attempt dictionary, a username that is
    not registered has no lockout, so registration is always followed by a
    successful login. *)
Lemma register_then_login_reachable clock random username password h w :
  reachable clock random w →
  users w !! username = None →
  (PASSWORD_MIN_LENGTH ≤ len password)%Z →
  digest_of password = Some h →
  let r := register clock username password password w in
  r.1 = Return (true, Registered) ∧
  (login clock username password r.2).1 = Return (true, LoggedIn).
Proof.
  intros Hreach Hu Hlen Hh. cbv zeta.
  assert (HL : locked_until w username = None).
  { unfold locked_until.
    destruct (login_attempts w !! username) as [r|] eqn:Hr; [|done].
    destruct (reachable_attempts_registered clock random w Hreach username) as [u' Hu'];
      [eauto|congruence]. }
  rewrite register_new, Hh by done. simpl. split; [done|].
  set (u := User.Build _ _ _ _ _).
  set (w1 := saved _).
  assert (Hu1 : users w1 !! username = Some u).
  { unfold w1. simpl. by rewrite lookup_insert_eq. }
  rewrite (login_free clock username password w1 u Hu1) by done.
  rewrite verify_password_right; [done|].
  unfold check_password. rewrite Hh. simpl. by rewrite bool_decide_true.
Qed.

(** *** The scenario of section 8 of the specification *)

Example scenario_alice :
  let clock := Sample.scenario_clock in
  let s0 := register clock Sample.alice (lit "secret1") (lit "secret1") Sample.first_run in
  let s1 := login clock Sample.alice (lit "wrong") s0.2 in
  let s2 := login clock Sample.alice (lit "wrong") s1.2 in
  let s3 := login clock Sample.alice (lit "wrong") s2.2 in
  let s4 := login clock Sample.alice (lit "secret1") s3.2 in
  let s5 := login clock Sample.alice (lit "secret1") s4.2 in
  s0.1 = Return (true, Registered) ∧
  s1.1 = Return (false, InvalidPassword 2) ∧
  s2.1 = Return (false, InvalidPassword 1) ∧
  s3.1 = Return (false, AccountLockedNow) ∧
  s4.1 = Return (false, AccountLocked 298) ∧
  s5.1 = Return (true, LoggedIn) ∧
  failed_count s5.2 Sample.alice = 0%Z ∧
  (User.last_login <$> users s5.2 !! Sample.alice) = Some (Some (clock 6)).
Proof. cbv zeta. repeat split; vm_compute; reflexivity. Qed.

(** The messages without a parameter are pairwise different. *)
Lemma messages_distinct :
  NoDup [DuplicateUser; PasswordTooShort; PasswordMismatch; Registered; UserNotFound;
         AccountLockedNow; LoggedIn; InvalidRecoveryCode; NewPasswordTooShort;
         PasswordReset].
Proof. apply (bool_decide_unpack _). vm_compute. exact I. Qed.

(** * Further properties of the credential store *)

(** *** [login], every case with the world it leaves *)






(** *** When [login] succeeds *)




(** *** What a call can change in a user's record *)







(** *** Saving and loading *)








(** *** Resetting a password *)



(** *** Recovery codes *)





(** *** Lockouts come from the clock *)






(** *** Whose attempt record a call can touch *)


